(** * Order query pipeline and status updates of the orders service

    A shallow embedding of [backend/src/orders/orders.service.ts]
    ([findAllWithFilters], [getSortValue], [updateStatus]) and of the
    [GET /orders] handler of the orders controller, followed by the
    properties of the order-history specification that concern them.

    Conventions of the embedding:
    - a [Date] is its [getTime()] value, a [Z] number of milliseconds;
      [new Date(s)] on a string is the section variable [parseDate], whose
      [None] stands for an invalid date (every comparison with it is false);
    - the string-literal unions [BloodType] and [OrderStatus] are plain
      strings, as they are at run time ([updateStatus] casts an arbitrary
      string to [OrderStatus]);
    - strings are sequences of character codes and [<] on strings is their
      lexicographic order; [String.prototype.toLowerCase] is the section
      variable [toLowerCase], so that every property holds for the case fold
      of the language, whatever letters it folds;
    - [Array.prototype.sort] is the stable sort of ECMAScript 2019; for the
      comparator of the service, which is a total preorder (see
      [compareOrders_trans] and [compareOrders_antisym]), its result is the
      stable sorted permutation computed by [js_sort]. *)

From Stdlib Require Import ZArith Ascii String List Sorted Permutation Lia Bool.
From stdpp Require Import base list strings gmap.

Local Open Scope string_scope.
Local Open Scope Z_scope.

(** ** Data model ([types/order.types.ts], as documented in the design) *)

Record BloodBankInfo := mkBloodBank {
  bb_id : string;
  bb_name : string;
  bb_location : string
}.

Record HospitalInfo := mkHospital {
  hospital_id : string;
  hospital_name : string;
  hospital_location : string
}.

Record RiderInfo := mkRider {
  rider_id : string;
  rider_name : string;
  rider_phone : string
}.

Record Order := mkOrder {
  order_id : string;
  bloodType : string;
  quantity : Z;
  bloodBank : BloodBankInfo;
  hospital : HospitalInfo;
  status : string;
  rider : option RiderInfo;
  placedAt : Z;
  deliveredAt : option Z;
  confirmedAt : option Z;
  cancelledAt : option Z;
  createdAt : Z;
  updatedAt : Z
}.

(** [OrderQueryParamsDto]: every field but [hospitalId] is optional. *)
Record OrderQueryParamsDto := mkParams {
  hospitalId : string;
  startDate : option string;
  endDate : option string;
  bloodTypes : option string;
  statuses : option string;
  searchBloodBank : option string;
  sortBy : option string;
  sortOrder : option string;
  page : option Z;
  pageSize : option Z
}.

(** A JavaScript number as far as [Math.ceil (a / b)] on integers needs it. *)
Inductive JsNumber :=
| JsInt (z : Z)
| JsInfinity
| JsNegInfinity
| JsNaN.

Record Pagination := mkPagination {
  currentPage : Z;
  pg_pageSize : Z;
  totalCount : Z;
  totalPages : JsNumber
}.

Record OrdersResponseDto := mkResponse {
  data : list Order;
  pagination : Pagination
}.

(** The outcome of a handler: the value returned, or the exception thrown. *)
Inductive BadRequestException :=
| InvalidQueryParameters (errors : list string)
| BadRequestMessage (message : string).

Inductive HttpResult (A : Type) :=
| Rejected (e : BadRequestException)
| Returned (a : A).

Arguments Rejected {A} e.
Arguments Returned {A} a.

(** ** JavaScript primitives used by the service *)

(** [if (s)] on an optional string: [undefined] and [''] are falsy. *)
Definition truthy (s : option string) : option string :=
  match s with
  | Some s' => if String.eqb s' "" then None else Some s'
  | None => None
  end.

(** [x = d] in a destructuring pattern: the default replaces [undefined]. *)
Definition or_default {A} (d : A) (x : option A) : A :=
  match x with Some v => v | None => d end.

(** [Array.prototype.includes] on strings. *)
Definition includes (l : list string) (x : string) : bool :=
  existsb (String.eqb x) l.

(** [String.prototype.split] with a one-character separator. *)
Fixpoint split (sep : ascii) (s : string) : list string :=
  match s with
  | EmptyString => [EmptyString]
  | String c s' =>
      if Ascii.eqb c sep then EmptyString :: split sep s'
      else match split sep s' with
           | w :: ws => String c w :: ws
           | [] => [String c EmptyString]
           end
  end.

(** An instance of [String.prototype.toLowerCase] for the examples: it folds
    the letters A-Z, which is what [toLowerCase] does on ASCII strings. The
    service is modelled for any case fold, see [OrdersService]. *)
Definition lower_ascii (c : ascii) : ascii :=
  let n := N_of_ascii c in
  if (65 <=? n)%N && (n <=? 90)%N then ascii_of_N (n + 32) else c.

Fixpoint asciiLowerCase (s : string) : string :=
  match s with
  | EmptyString => EmptyString
  | String c s' => String (lower_ascii c) (asciiLowerCase s')
  end.

(** A second instance, for strings in UTF-8: it also folds the capital
    letters of Latin-1, U+00C0 to U+00DE but for the sign U+00D7, whose codes
    are the byte 195 and a byte from 128 to 158. *)
Fixpoint utf8LowerCase (s : string) : string :=
  match s with
  | EmptyString => EmptyString
  | String c s' =>
      if (N_of_ascii c =? 195)%N then
        match s' with
        | String d s'' =>
            let n := N_of_ascii d in
            if (128 <=? n)%N && (n <=? 158)%N && negb (n =? 151)%N
            then String c (String (ascii_of_N (n + 32)) (utf8LowerCase s''))
            else String c (String d (utf8LowerCase s''))
        | EmptyString => String c EmptyString
        end
      else String (lower_ascii c) (utf8LowerCase s')
  end.

(** [String.prototype.includes]: [t] occurs in [s]. *)
Fixpoint str_includes (s t : string) : bool :=
  String.prefix t s ||
  match s with
  | EmptyString => false
  | String _ s' => str_includes s' t
  end.

(** Relational comparison of two dates, either of which may be invalid. *)
Definition date_ge (a b : option Z) : bool :=
  match a, b with
  | Some x, Some y => y <=? x
  | _, _ => false
  end.

Definition date_le (a b : option Z) : bool := date_ge b a.

Definition date_gt (a b : option Z) : bool :=
  match a, b with
  | Some x, Some y => y <? x
  | _, _ => false
  end.

(** The values [getSortValue] returns: a string or a number. *)
Inductive SortValue :=
| SVStr (s : string)
| SVNum (n : Z).

(** [a < b] on sort values. Both operands of a comparison come from the
    same column, hence are of the same kind ([getSortValue_kind]); the mixed
    case is never evaluated by the service. *)
Definition js_lt (a b : SortValue) : bool :=
  match a, b with
  | SVStr s, SVStr t => String.ltb s t
  | SVNum n, SVNum m => n <? m
  | _, _ => false
  end.

Definition js_gt (a b : SortValue) : bool := js_lt b a.

(** Stable sort with a comparator returning a negative, zero or positive
    number: [x], which stood before the elements of [l], is placed before
    the first of them that it does not exceed. *)
Fixpoint js_insert {A} (cmp : A -> A -> Z) (x : A) (l : list A) : list A :=
  match l with
  | [] => [x]
  | y :: l' => if cmp x y <=? 0 then x :: y :: l' else y :: js_insert cmp x l'
  end.

Fixpoint js_sort {A} (cmp : A -> A -> Z) (l : list A) : list A :=
  match l with
  | [] => []
  | x :: l' => js_insert cmp x (js_sort cmp l')
  end.

(** [Array.prototype.slice (start, end)]: a negative index counts from the
    end of the array, and both are clamped to the array. *)
Definition relative_index (len i : Z) : Z :=
  if i <? 0 then Z.max (len + i) 0 else Z.min i len.

Definition js_slice {A} (l : list A) (start end_ : Z) : list A :=
  let len := Z.of_nat (length l) in
  let k := relative_index len start in
  let final := relative_index len end_ in
  take (Z.to_nat (final - k)) (drop (Z.to_nat k) l).

(** [Math.ceil (a / b)] on integers: the quotient of two integers below 2^53
    is rounded to a double without reaching the next integer, so that the
    result is the exact ceiling. *)
Definition ceil_div (a b : Z) : JsNumber :=
  if b =? 0 then
    if a =? 0 then JsNaN else if 0 <? a then JsInfinity else JsNegInfinity
  else JsInt (- ((- a) / b)).

(** ** An instance of date parsing for the examples

    Date-only ISO strings [YYYY-MM-DD] are read by [Date] as midnight UTC. *)

Definition digit_of (c : ascii) : option Z :=
  let n := N_of_ascii c in
  if (48 <=? n)%N && (n <=? 57)%N then Some (Z.of_N (n - 48)) else None.

Fixpoint digits_of (s : string) (acc : Z) : option Z :=
  match s with
  | EmptyString => Some acc
  | String c s' =>
      match digit_of c with
      | Some d => digits_of s' (10 * acc + d)
      | None => None
      end
  end.

Definition days_in_month (y m : Z) : Z :=
  if m =? 2 then
    if ((y mod 4 =? 0) && negb (y mod 100 =? 0)) || (y mod 400 =? 0)
    then 29 else 28
  else if (m =? 4) || (m =? 6) || (m =? 9) || (m =? 11) then 30 else 31.

Definition days_from_civil (y m d : Z) : Z :=
  let y' := if m <=? 2 then y - 1 else y in
  let era := y' / 400 in
  let yoe := y' - era * 400 in
  let mp := if 2 <? m then m - 3 else m + 9 in
  let doy := (153 * mp + 2) / 5 + d - 1 in
  let doe := yoe * 365 + yoe / 4 - yoe / 100 + doy in
  era * 146097 + doe - 719468.

Definition isoDate (s : string) : option Z :=
  if negb (Nat.eqb (String.length s) 10) then None
  else if negb (String.eqb (substring 4 1 s) "-") then None
  else if negb (String.eqb (substring 7 1 s) "-") then None
  else
    match digits_of (substring 0 4 s) 0,
          digits_of (substring 5 2 s) 0,
          digits_of (substring 8 2 s) 0 with
    | Some y, Some m, Some d =>
        if (1 <=? m) && (m <=? 12) && (1 <=? d) && (d <=? days_in_month y m)
        then Some (days_from_civil y m d * 86400000)
        else None
    | _, _, _ => None
    end.

(** ** The service *)

Section OrdersService.

(** [new Date (s).getTime ()], [None] for an invalid date. *)
Variable parseDate : string -> option Z.

(** [String.prototype.toLowerCase]. *)
Variable toLowerCase : string -> string.

Definition activeStatuses : list string := ["pending"; "confirmed"; "in_transit"].

Definition getSortValue (order : Order) (sortBy : string) : SortValue :=
  if String.eqb sortBy "id" then SVStr (order_id order)
  else if String.eqb sortBy "bloodType" then SVStr (bloodType order)
  else if String.eqb sortBy "quantity" then SVNum (quantity order)
  else if String.eqb sortBy "bloodBank" then SVStr (bb_name (bloodBank order))
  else if String.eqb sortBy "status" then SVStr (status order)
  else if String.eqb sortBy "rider" then
    SVStr (match rider order with
           | Some r => if String.eqb (rider_name r) "" then "" else rider_name r
           | None => ""
           end)
  else if String.eqb sortBy "placedAt" then SVNum (placedAt order)
  else if String.eqb sortBy "deliveredAt" then
    SVNum (match deliveredAt order with Some t => t | None => 0 end)
  else SVNum (placedAt order).

(** The comparator passed to [sort]. *)
Definition compareOrders (sortBy sortOrder : string) (a b : Order) : Z :=
  let aIsActive := includes activeStatuses (status a) in
  let bIsActive := includes activeStatuses (status b) in
  if aIsActive && negb bIsActive then -1
  else if negb aIsActive && bIsActive then 1
  else
    let aValue := getSortValue a sortBy in
    let bValue := getSortValue b sortBy in
    if js_lt aValue bValue then (if String.eqb sortOrder "asc" then -1 else 1)
    else if js_gt aValue bValue then (if String.eqb sortOrder "asc" then 1 else -1)
    else 0.

(** The successive filters of [findAllWithFilters]. *)
Definition filterOrders (orders : list Order) (params : OrderQueryParamsDto)
  : list Order :=
  let filteredOrders :=
    List.filter (fun order => String.eqb (hospital_id (hospital order)) (hospitalId params))
      orders in
  let filteredOrders :=
    match truthy (startDate params) with
    | Some s =>
        let start := parseDate s in
        List.filter (fun order => date_ge (Some (placedAt order)) start) filteredOrders
    | None => filteredOrders
    end in
  let filteredOrders :=
    match truthy (endDate params) with
    | Some s =>
        let end_ := parseDate s in
        List.filter (fun order => date_le (Some (placedAt order)) end_) filteredOrders
    | None => filteredOrders
    end in
  let filteredOrders :=
    match truthy (bloodTypes params) with
    | Some s =>
        let bloodTypeArray := split "," s in
        List.filter (fun order => includes bloodTypeArray (bloodType order)) filteredOrders
    | None => filteredOrders
    end in
  let filteredOrders :=
    match truthy (statuses params) with
    | Some s =>
        let statusArray := split "," s in
        List.filter (fun order => includes statusArray (status order)) filteredOrders
    | None => filteredOrders
    end in
  match truthy (searchBloodBank params) with
  | Some s =>
      let searchTerm := toLowerCase s in
      List.filter
        (fun order => str_includes (toLowerCase (bb_name (bloodBank order))) searchTerm)
        filteredOrders
  | None => filteredOrders
  end.

(** The filtered sequence after [sort]. *)
Definition sortedOrders (orders : list Order) (params : OrderQueryParamsDto)
  : list Order :=
  js_sort
    (compareOrders (or_default "placedAt" (sortBy params))
                   (or_default "desc" (sortOrder params)))
    (filterOrders orders params).

Definition findAllWithFilters (orders : list Order) (params : OrderQueryParamsDto)
  : OrdersResponseDto :=
  let page := or_default 1 (page params) in
  let pageSize := or_default 25 (pageSize params) in
  let filteredOrders := sortedOrders orders params in
  let totalCount := Z.of_nat (length filteredOrders) in
  let totalPages := ceil_div totalCount pageSize in
  let startIndex := (page - 1) * pageSize in
  let endIndex := startIndex + pageSize in
  let paginatedOrders := js_slice filteredOrders startIndex endIndex in
  {| data := paginatedOrders;
     pagination := {| currentPage := page;
                      pg_pageSize := pageSize;
                      totalCount := totalCount;
                      totalPages := totalPages |} |}.

(** ** The [GET /orders] handler of the controller *)

Definition sortColumns : list string :=
  ["id"; "bloodType"; "quantity"; "bloodBank"; "status"; "rider"; "placedAt";
   "deliveredAt"].

Definition pageSizes : list Z := [25; 50; 100].

(** Modelled from the spec: the class-validator constraints of
    [OrderQueryParamsDto] ([dto/order-query-params.dto.ts] is not among the
    sources), which the [ValidationPipe] of the handler evaluates. The
    specification lists as validation errors a [pageSize] outside
    {25, 50, 100}, a [page] below 1 and an unknown sort column; the sort
    columns are the cases of [getSortValue]. Each message names its field. *)
Definition dtoConstraintErrors (params : OrderQueryParamsDto) : list string :=
  (match pageSize params with
   | Some n =>
       if existsb (Z.eqb n) pageSizes then []
       else ["pageSize must be one of the following values: 25, 50, 100"]
   | None => []
   end) ++
  (match page params with
   | Some n => if 1 <=? n then [] else ["page must not be less than 1"]
   | None => []
   end) ++
  (match sortBy params with
   | Some c =>
       if includes sortColumns c then []
       else ["sortBy must be one of the sortable columns"]
   | None => []
   end).

(** The handler: the validation pipe runs on the query first, then the date
    range is checked, and only then is the injected service called. *)
Definition controller_findAllWithFilters
    (ordersService : OrderQueryParamsDto -> OrdersResponseDto)
    (params : OrderQueryParamsDto)
  : HttpResult OrdersResponseDto :=
  match dtoConstraintErrors params with
  | _ :: _ as messages => Rejected (InvalidQueryParameters messages)
  | [] =>
      match truthy (startDate params), truthy (endDate params) with
      | Some s, Some e =>
          let start := parseDate s in
          let end_ := parseDate e in
          if date_gt start end_
          then Rejected (BadRequestMessage "startDate must be before or equal to endDate")
          else Returned (ordersService params)
      | _, _ => Returned (ordersService params)
      end
  end.

(** ** [updateStatus]

    The service owns the array [this.orders] and a gateway; the state is the
    array together with the events emitted so far, each with the hospital
    room it was sent to. [new Date ()] is the argument [now]. *)

Record OrderUpdateEvent := mkEvent {
  ev_id : string;
  ev_status : string;
  ev_rider : option RiderInfo;
  ev_updatedAt : Z;
  ev_deliveredAt : option Z
}.

Inductive StatusData :=
| UpdatedOrder (o : Order)
| IdAndStatus (id status : string).

Record StatusResponse := mkStatusResponse {
  message : string;
  status_data : StatusData
}.

Record ServiceState := mkState {
  orders : list Order;
  emitted : list (string * OrderUpdateEvent)
}.

(** [Array.prototype.findIndex]; [None] is the result -1. *)
Fixpoint findIndex {A} (p : A -> bool) (l : list A) : option nat :=
  match l with
  | [] => None
  | x :: l' => if p x then Some 0%nat else option_map S (findIndex p l')
  end.

(** [{...order, status, updatedAt: now}] *)
Definition withStatus (order : Order) (newStatus : string) (now : Z) : Order :=
  {| order_id := order_id order;
     bloodType := bloodType order;
     quantity := quantity order;
     bloodBank := bloodBank order;
     hospital := hospital order;
     status := newStatus;
     rider := rider order;
     placedAt := placedAt order;
     deliveredAt := deliveredAt order;
     confirmedAt := confirmedAt order;
     cancelledAt := cancelledAt order;
     createdAt := createdAt order;
     updatedAt := now |}.

Definition notFoundResponse (id newStatus : string) : StatusResponse :=
  {| message := "Order status updated successfully";
     status_data := IdAndStatus id newStatus |}.

Definition updateStatus (now : Z) (id newStatus : string) (st : ServiceState)
  : StatusResponse * ServiceState :=
  match findIndex (fun order => String.eqb (order_id order) id) (orders st) with
  | Some orderIndex =>
      match orders st !! orderIndex with
      | Some order =>
          let updatedOrder := withStatus order newStatus now in
          ({| message := "Order status updated successfully";
              status_data := UpdatedOrder updatedOrder |},
           {| orders := <[orderIndex := updatedOrder]> (orders st);
              emitted :=
                emitted st ++
                [(hospital_id (hospital order),
                  {| ev_id := order_id updatedOrder;
                     ev_status := status updatedOrder;
                     ev_rider := rider updatedOrder;
                     ev_updatedAt := updatedAt updatedOrder;
                     ev_deliveredAt := deliveredAt updatedOrder |})] |})
      | None =>
          (* not reached: [findIndex] answers an index of the array,
             see [findIndex_Some] *)
          (notFoundResponse id newStatus, st)
      end
  | None => (notFoundResponse id newStatus, st)
  end.

End OrdersService.

(** ** Vocabulary of the properties *)

(** The partition of the statuses: active and completed orders. *)
Definition isActive (o : Order) : bool := includes activeStatuses (status o).

Definition completedStatuses : list string := ["delivered"; "cancelled"].

Definition isCompleted (o : Order) : bool := includes completedStatuses (status o).

(** The order of a column: numbers by value, strings by character codes. *)
Definition sv_le (a b : SortValue) : Prop :=
  match a, b with
  | SVStr s, SVStr t => String.leb s t = true
  | SVNum n, SVNum m => n <= m
  | _, _ => False
  end.

Definition same_kind (a b : SortValue) : Prop :=
  match a, b with
  | SVStr _, SVStr _ => True
  | SVNum _, SVNum _ => True
  | _, _ => False
  end.

(** [x] may stand before [y] in an array sorted with the comparator [cmp]. *)
Definition not_after {A} (cmp : A -> A -> Z) (x y : A) : Prop := cmp x y <= 0.

Definition cmp_le (sortBy sortOrder : string) (a b : Order) : Prop :=
  not_after (compareOrders sortBy sortOrder) a b.

(** The elements of [l] at the indices [from], ..., [to - 1]. *)
Definition elements_between {A} (l : list A) (from to : nat) : list A :=
  take (to - from) (drop from l).

(** [search] occurs in [name], letter case apart. *)
Definition contains_ci (toLowerCase : string -> string) (name search : string)
  : Prop :=
  exists pre post : string,
    toLowerCase name = pre ++ toLowerCase search ++ post.

(** The filter dimensions as the specification words them: a dimension that
    is absent or empty constrains nothing. *)
Definition spec_date_from (parseDate : string -> option Z)
    (bound : option string) (o : Order) : Prop :=
  forall s, bound = Some s -> s <> "" ->
    exists t, parseDate s = Some t /\ t <= placedAt o.

Definition spec_date_to (parseDate : string -> option Z)
    (bound : option string) (o : Order) : Prop :=
  forall s, bound = Some s -> s <> "" ->
    exists t, parseDate s = Some t /\ placedAt o <= t.

Definition spec_member (selection : option string) (v : string) : Prop :=
  forall s, selection = Some s -> s <> "" -> In v (split "," s).

Definition spec_search (toLowerCase : string -> string)
    (search : option string) (name : string) : Prop :=
  forall s, search = Some s -> s <> "" -> contains_ci toLowerCase name s.

Definition spec_matches (parseDate : string -> option Z)
    (toLowerCase : string -> string)
    (params : OrderQueryParamsDto) (o : Order) : Prop :=
  spec_date_from parseDate (startDate params) o /\
  spec_date_to parseDate (endDate params) o /\
  spec_member (bloodTypes params) (bloodType o) /\
  spec_member (statuses params) (status o) /\
  spec_search toLowerCase (searchBloodBank params) (bb_name (bloodBank o)).

(** [o'] is [o] but for its status and its [updatedAt]. *)
Definition same_but_status (o o' : Order) : Prop :=
  order_id o' = order_id o /\
  bloodType o' = bloodType o /\
  quantity o' = quantity o /\
  bloodBank o' = bloodBank o /\
  hospital o' = hospital o /\
  rider o' = rider o /\
  placedAt o' = placedAt o /\
  deliveredAt o' = deliveredAt o /\
  confirmedAt o' = confirmedAt o /\
  cancelledAt o' = cancelledAt o /\
  createdAt o' = createdAt o.

(** ** Sample data for the examples *)

Definition sampleOrder (i h st : string) (placed : Z) (delivered : option Z) : Order :=
  {| order_id := i;
     bloodType := "A+";
     quantity := 2;
     bloodBank := mkBloodBank "BB-001" "Central Blood Bank" "Lagos";
     hospital := mkHospital h "General Hospital" "Ikeja";
     status := st;
     rider := None;
     placedAt := placed;
     deliveredAt := delivered;
     confirmedAt := None;
     cancelledAt := None;
     createdAt := placed;
     updatedAt := placed |}.

Definition sampleParams (h : string) : OrderQueryParamsDto :=
  {| hospitalId := h;
     startDate := None;
     endDate := None;
     bloodTypes := None;
     statuses := None;
     searchBloodBank := None;
     sortBy := None;
     sortOrder := None;
     page := None;
     pageSize := None |}.

Definition sampleStore : list Order :=
  [ sampleOrder "O2" "HOSP-001" "delivered" 1704067200000 (Some 1704070800000);
    sampleOrder "O1" "HOSP-001" "pending" 1704153600000 None;
    sampleOrder "O3" "HOSP-002" "pending" 1704153600000 None ].

Definition sampleState : ServiceState :=
  {| orders := sampleStore; emitted := [] |}.

Definition sampleO1 : Order :=
  sampleOrder "O1" "HOSP-001" "pending" 1704153600000 None.

Definition sampleO2 : Order :=
  sampleOrder "O2" "HOSP-001" "delivered" 1704067200000 (Some 1704070800000).

Definition sampleO6 : Order :=
  sampleOrder "O6" "HOSP-001" "pending" 1704240000000 None.

(** Two completed orders, one never delivered, one delivered a millisecond
    before 1970-01-01T00:00:00Z. *)
Definition cancelledOrder : Order :=
  sampleOrder "O4" "HOSP-001" "cancelled" 1704153600000 None.

Definition earlyOrder : Order :=
  sampleOrder "O5" "HOSP-001" "delivered" 1704153600000 (Some (-1)).

Definition byDeliveredAtAsc : OrderQueryParamsDto :=
  {| hospitalId := "HOSP-001";
     startDate := None;
     endDate := None;
     bloodTypes := None;
     statuses := None;
     searchBloodBank := None;
     sortBy := Some "deliveredAt";
     sortOrder := Some "asc";
     page := Some 1;
     pageSize := Some 25 |}.

Definition filteredParams : OrderQueryParamsDto :=
  {| hospitalId := "HOSP-001";
     startDate := Some "2024-01-01";
     endDate := Some "2024-01-31";
     bloodTypes := Some "A+,O-";
     statuses := Some "pending,delivered";
     searchBloodBank := Some "BLOOD";
     sortBy := Some "placedAt";
     sortOrder := Some "desc";
     page := Some 1;
     pageSize := Some 25 |}.

Definition badRangeParams : OrderQueryParamsDto :=
  {| hospitalId := "HOSP-001";
     startDate := Some "2024-02-01";
     endDate := Some "2024-01-01";
     bloodTypes := None;
     statuses := None;
     searchBloodBank := None;
     sortBy := None;
     sortOrder := None;
     page := None;
     pageSize := None |}.

(** ** The gateway and the client of the update events

    [OrdersGateway] and the handler of the dashboard, as the design gives
    them; [updateStatus] calls the first and the second consumes what it
    emits. *)





(** [Partial<Order>]: every field may be missing. *)
Record PartialOrder := mkPartial {
  p_id : option string;
  p_bloodType : option string;
  p_quantity : option Z;
  p_bloodBank : option BloodBankInfo;
  p_hospital : option HospitalInfo;
  p_status : option string;
  p_rider : option (option RiderInfo);
  p_placedAt : option Z;
  p_deliveredAt : option (option Z);
  p_confirmedAt : option (option Z);
  p_cancelledAt : option (option Z);
  p_createdAt : option Z;
  p_updatedAt : option Z
}.

(** [{...order, ...updatedOrder}] *)
Definition mergeOrder (order : Order) (updatedOrder : PartialOrder) : Order :=
  {| order_id := or_default (order_id order) (p_id updatedOrder);
     bloodType := or_default (bloodType order) (p_bloodType updatedOrder);
     quantity := or_default (quantity order) (p_quantity updatedOrder);
     bloodBank := or_default (bloodBank order) (p_bloodBank updatedOrder);
     hospital := or_default (hospital order) (p_hospital updatedOrder);
     status := or_default (status order) (p_status updatedOrder);
     rider := or_default (rider order) (p_rider updatedOrder);
     placedAt := or_default (placedAt order) (p_placedAt updatedOrder);
     deliveredAt := or_default (deliveredAt order) (p_deliveredAt updatedOrder);
     confirmedAt := or_default (confirmedAt order) (p_confirmedAt updatedOrder);
     cancelledAt := or_default (cancelledAt order) (p_cancelledAt updatedOrder);
     createdAt := or_default (createdAt order) (p_createdAt updatedOrder);
     updatedAt := or_default (updatedAt order) (p_updatedAt updatedOrder) |}.

(** [order.id === updatedOrder.id]; a missing id equals no id. *)
Definition sameId (order : Order) (updatedOrder : PartialOrder) : bool :=
  match p_id updatedOrder with
  | Some i => String.eqb (order_id order) i
  | None => false
  end.

(** The first [handleOrderUpdate] of the dashboard. *)
Definition handleOrderUpdate (updatedOrder : PartialOrder) (prevOrders : list Order)
  : list Order :=
  map (fun order =>
         if sameId order updatedOrder then mergeOrder order updatedOrder else order)
      prevOrders.

(** [SortConfig], the sort of the dashboard. *)
Record SortConfig := mkSortConfig {
  sc_column : string;
  sc_order : string
}.

(** [updatedOrder.status && ['delivered', 'cancelled'].includes (updatedOrder.status)] *)
Definition carriesCompletedStatus (updatedOrder : PartialOrder) : bool :=
  match truthy (p_status updatedOrder) with
  | Some s => includes ["delivered"; "cancelled"] s
  | None => false
  end.

(** The second [handleOrderUpdate] of the dashboard, which sorts the page
    again when the update carries a completed status. [sortOrders] is not
    among the sources: it is an argument. *)
Definition handleOrderUpdateResorting
    (sortOrders : list Order -> SortConfig -> list Order) (sort : SortConfig)
    (updatedOrder : PartialOrder) (prevOrders : list Order) : list Order :=
  let updated :=
    map (fun order =>
           if sameId order updatedOrder then mergeOrder order updatedOrder else order)
        prevOrders in
  if carriesCompletedStatus updatedOrder then sortOrders updated sort else updated.

(** The payload of [order:updated] as the client receives it. *)
Definition eventPayload (ev : OrderUpdateEvent) : PartialOrder :=
  {| p_id := Some (ev_id ev);
     p_bloodType := None;
     p_quantity := None;
     p_bloodBank := None;
     p_hospital := None;
     p_status := Some (ev_status ev);
     p_rider := Some (ev_rider ev);
     p_placedAt := None;
     p_deliveredAt := Some (ev_deliveredAt ev);
     p_confirmedAt := None;
     p_cancelledAt := None;
     p_createdAt := None;
     p_updatedAt := Some (ev_updatedAt ev) |}.

(** ** Further vocabulary *)

(** The query [params] with another page, another sort, another search. *)
Definition withPage (params : OrderQueryParamsDto) (n : Z) : OrderQueryParamsDto :=
  {| hospitalId := hospitalId params;
     startDate := startDate params;
     endDate := endDate params;
     bloodTypes := bloodTypes params;
     statuses := statuses params;
     searchBloodBank := searchBloodBank params;
     sortBy := sortBy params;
     sortOrder := sortOrder params;
     page := Some n;
     pageSize := pageSize params |}.

Definition withSort (params : OrderQueryParamsDto) (column direction : string)
  : OrderQueryParamsDto :=
  {| hospitalId := hospitalId params;
     startDate := startDate params;
     endDate := endDate params;
     bloodTypes := bloodTypes params;
     statuses := statuses params;
     searchBloodBank := searchBloodBank params;
     sortBy := Some column;
     sortOrder := Some direction;
     page := page params;
     pageSize := pageSize params |}.

Definition withSearch (params : OrderQueryParamsDto) (search : string)
  : OrderQueryParamsDto :=
  {| hospitalId := hospitalId params;
     startDate := startDate params;
     endDate := endDate params;
     bloodTypes := bloodTypes params;
     statuses := statuses params;
     searchBloodBank := Some search;
     sortBy := sortBy params;
     sortOrder := sortOrder params;
     page := page params;
     pageSize := pageSize params |}.

(** [b] is [a], or [a] with another status and another [updatedAt]. *)
Definition status_variant (a b : Order) : Prop :=
  b = a \/ exists newStatus now, b = withStatus a newStatus now.

(** The two orders tie for the comparator. *)
Definition ties (sortBy sortOrder : string) (x y : Order) : bool :=
  compareOrders sortBy sortOrder x y =? 0.

(** The ids of the orders, in order. *)
Definition ids (l : list Order) : list string := map order_id l.

(** More sample data. *)
Definition garbageDateParams : OrderQueryParamsDto :=
  {| hospitalId := "HOSP-001";
     startDate := Some "yesterday";
     endDate := None;
     bloodTypes := None;
     statuses := None;
     searchBloodBank := None;
     sortBy := None;
     sortOrder := None;
     page := None;
     pageSize := None |}.

Definition ecoleOrder : Order :=
  {| order_id := "O10";
     bloodType := "O-";
     quantity := 1;
     bloodBank := mkBloodBank "BB-002" "ÉCOLE Blood Bank" "Lagos";
     hospital := mkHospital "HOSP-001" "General Hospital" "Ikeja";
     status := "pending";
     rider := None;
     placedAt := 1704153600000;
     deliveredAt := None;
     confirmedAt := None;
     cancelledAt := None;
     createdAt := 1704153600000;
     updatedAt := 1704153600000 |}.

Definition onePerPage : OrderQueryParamsDto :=
  {| hospitalId := "HOSP-001";
     startDate := None;
     endDate := None;
     bloodTypes := None;
     statuses := None;
     searchBloodBank := None;
     sortBy := None;
     sortOrder := None;
     page := Some 1;
     pageSize := Some 1 |}.

Definition sampleEvent : OrderUpdateEvent :=
  {| ev_id := "O1";
     ev_status := "delivered";
     ev_rider := None;
     ev_updatedAt := 1704240000000;
     ev_deliveredAt := None |}.

Definition sampleO7 : Order :=
  sampleOrder "O7" "HOSP-001" "confirmed" 1704153600000 None.

(** ** The order on strings *)

Lemma ascii_compare_refl (a : ascii) : Ascii.compare a a = Eq.
Proof. unfold Ascii.compare. apply N.compare_refl. Qed.

Lemma ascii_compare_trans (c : comparison) (a b d : ascii) :
  Ascii.compare a b = c -> Ascii.compare b d = c -> Ascii.compare a d = c.
Proof.
  unfold Ascii.compare. destruct c; intros H1 H2.
  - apply N.compare_eq_iff in H1, H2. rewrite H1, H2. apply N.compare_refl.
  - apply N.compare_lt_iff in H1. apply N.compare_lt_iff in H2.
    apply N.compare_lt_iff. by etrans.
  - apply N.compare_gt_iff in H1. apply N.compare_gt_iff in H2.
    apply N.compare_gt_iff. by etrans.
Qed.

Lemma string_compare_refl (s : string) : String.compare s s = Eq.
Proof. induction s as [|a s IH]; simpl; [done|]. by rewrite ascii_compare_refl. Qed.

Lemma string_compare_trans (c : comparison) (s1 s2 s3 : string) :
  String.compare s1 s2 = c -> String.compare s2 s3 = c -> String.compare s1 s3 = c.
Proof.
  revert s2 s3. induction s1 as [|a s1 IH]; intros [|b s2] [|d s3]; simpl;
    try congruence.
  destruct (Ascii.compare a b) eqn:Hab; destruct (Ascii.compare b d) eqn:Hbd;
    intros H1 H2; try congruence.
  - rewrite (ascii_compare_trans Eq a b d Hab Hbd). eauto.
  - apply Ascii.compare_eq_iff in Hab. subst b. by rewrite Hbd.
  - apply Ascii.compare_eq_iff in Hab. subst b. by rewrite Hbd.
  - apply Ascii.compare_eq_iff in Hbd. subst d. by rewrite Hab.
  - by rewrite (ascii_compare_trans Lt a b d Hab Hbd).
  - apply Ascii.compare_eq_iff in Hbd. subst d. by rewrite Hab.
  - by rewrite (ascii_compare_trans Gt a b d Hab Hbd).
Qed.

Lemma string_ltb_irrefl (s : string) : String.ltb s s = false.
Proof. unfold String.ltb. by rewrite string_compare_refl. Qed.

Lemma string_ltb_asym (s t : string) :
  String.ltb s t = true -> String.ltb t s = false.
Proof.
  unfold String.ltb. rewrite (String.compare_antisym t s).
  by destruct (String.compare s t).
Qed.

Lemma string_ltb_leb (s t : string) : String.ltb t s = negb (String.leb s t).
Proof.
  unfold String.ltb, String.leb. rewrite (String.compare_antisym t s).
  by destruct (String.compare s t).
Qed.

Lemma string_leb_trans (s1 s2 s3 : string) :
  String.leb s1 s2 = true -> String.leb s2 s3 = true -> String.leb s1 s3 = true.
Proof.
  unfold String.leb.
  destruct (String.compare s1 s2) eqn:H12; [| |done];
    destruct (String.compare s2 s3) eqn:H23; try done; intros _ _.
  - by rewrite (string_compare_trans Eq _ _ _ H12 H23).
  - apply String.compare_eq_iff in H12. subst s2. by rewrite H23.
  - apply String.compare_eq_iff in H23. subst s3. by rewrite H12.
  - by rewrite (string_compare_trans Lt _ _ _ H12 H23).
Qed.

(** ** The order on sort values *)

Lemma js_lt_cases (x y : SortValue) :
  same_kind x y ->
  (js_lt x y = true /\ js_lt y x = false /\ sv_le x y /\ ~ sv_le y x) \/
  (js_lt x y = false /\ js_lt y x = true /\ sv_le y x /\ ~ sv_le x y) \/
  (js_lt x y = false /\ js_lt y x = false /\ sv_le x y /\ sv_le y x).
Proof.
  destruct x as [s|n], y as [t|m]; simpl; try done; intros _.
  - rewrite (string_ltb_leb s t), (string_ltb_leb t s).
    destruct (String.leb s t) eqn:E1, (String.leb t s) eqn:E2; simpl;
      try (intuition congruence).
    destruct (String.leb_total s t); congruence.
  - destruct (Z.ltb_spec n m), (Z.ltb_spec m n); intuition lia.
Qed.

Lemma sv_le_trans (x y z : SortValue) : sv_le x y -> sv_le y z -> sv_le x z.
Proof.
  destruct x, y, z; simpl; try done; [apply string_leb_trans | lia].
Qed.

Lemma getSortValue_kind (a b : Order) (sortBy : string) :
  same_kind (getSortValue a sortBy) (getSortValue b sortBy).
Proof.
  unfold getSortValue. repeat (case_match; [done|]). done.
Qed.

(** ** The comparator is a total preorder *)

Lemma cmp_le_iff (sortBy sortOrder : string) (a b : Order) :
  cmp_le sortBy sortOrder a b <->
  (isActive a = true /\ isActive b = false) \/
  (isActive a = isActive b /\
   if String.eqb sortOrder "asc"
   then sv_le (getSortValue a sortBy) (getSortValue b sortBy)
   else sv_le (getSortValue b sortBy) (getSortValue a sortBy)).
Proof.
  unfold cmp_le, not_after, compareOrders, isActive, js_gt. cbv zeta.
  destruct (js_lt_cases _ _ (getSortValue_kind a b sortBy))
    as [(E1 & E2 & ? & ?)|[(E1 & E2 & ? & ?)|(E1 & E2 & ? & ?)]];
    rewrite ?E1, ?E2;
    destruct (includes activeStatuses (status a)),
             (includes activeStatuses (status b));
    destruct (String.eqb sortOrder "asc"); simpl;
    split; intros; try lia; try tauto; intuition congruence.
Qed.

Lemma compareOrders_total (sortBy sortOrder : string) (a b : Order) :
  cmp_le sortBy sortOrder a b \/ cmp_le sortBy sortOrder b a.
Proof.
  rewrite !cmp_le_iff.
  destruct (js_lt_cases _ _ (getSortValue_kind a b sortBy))
    as [(_ & _ & ? & ?)|[(_ & _ & ? & ?)|(_ & _ & ? & ?)]];
    destruct (isActive a), (isActive b), (String.eqb sortOrder "asc"); tauto.
Qed.

Lemma compareOrders_trans (sortBy sortOrder : string) (a b c : Order) :
  cmp_le sortBy sortOrder a b -> cmp_le sortBy sortOrder b c ->
  cmp_le sortBy sortOrder a c.
Proof.
  rewrite !cmp_le_iff.
  intros [[Ha Hb]|[Hab H1]] [[Hb' Hc]|[Hbc H2]]; try congruence.
  - left. split; congruence.
  - left. split; congruence.
  - right. split; [congruence|].
    destruct (String.eqb sortOrder "asc"); eauto using sv_le_trans.
Qed.

(** Exchanging the arguments of the comparator exchanges the sign of its
    result, as a consistent comparator must. *)
Lemma compareOrders_antisym (sortBy sortOrder : string) (a b : Order) :
  compareOrders sortBy sortOrder a b = - compareOrders sortBy sortOrder b a.
Proof.
  unfold compareOrders, js_gt. cbv zeta.
  destruct (js_lt_cases _ _ (getSortValue_kind a b sortBy))
    as [(E1 & E2 & _)|[(E1 & E2 & _)|(E1 & E2 & _)]];
    rewrite ?E1, ?E2;
    destruct (includes activeStatuses (status a)),
             (includes activeStatuses (status b));
    destruct (String.eqb sortOrder "asc"); reflexivity.
Qed.

(** ** The stable sort *)

Section Sort.
Context {A : Type} (cmp : A -> A -> Z).

Hypothesis R_total : forall x y, not_after cmp x y \/ not_after cmp y x.
Hypothesis R_trans :
  forall x y z, not_after cmp x y -> not_after cmp y z -> not_after cmp x z.

Lemma js_insert_Permutation (x : A) (l : list A) :
  js_insert cmp x l ≡ₚ x :: l.
Proof.
  induction l as [|y l IH]; simpl; [done|].
  destruct (cmp x y <=? 0); [done|].
  rewrite IH. apply perm_swap.
Qed.

Lemma js_sort_Permutation (l : list A) : js_sort cmp l ≡ₚ l.
Proof.
  induction l as [|x l IH]; simpl; [done|].
  by rewrite js_insert_Permutation, IH.
Qed.

Lemma js_insert_StronglySorted (x : A) (l : list A) :
  StronglySorted (not_after cmp) l -> StronglySorted (not_after cmp) (js_insert cmp x l).
Proof.
  induction 1 as [|y l Hl IH Hy]; simpl.
  - repeat constructor.
  - destruct (Z.leb_spec (cmp x y) 0) as [Hxy|Hxy].
    + constructor; [by constructor|].
      constructor; [done|].
      eapply Forall_impl; [exact Hy|]. intros z Hz. by eapply R_trans.
    + constructor; [done|].
      rewrite js_insert_Permutation. constructor; [|done].
      destruct (R_total x y) as [H|H]; [|done]. unfold not_after in *. lia.
Qed.

Lemma js_sort_StronglySorted (l : list A) : StronglySorted (not_after cmp) (js_sort cmp l).
Proof.
  induction l as [|x l IH]; simpl; [constructor|].
  by apply js_insert_StronglySorted.
Qed.

Lemma StronglySorted_lookup (l : list A) (i j : nat) (x y : A) :
  StronglySorted (not_after cmp) l -> l !! i = Some x -> l !! j = Some y -> (i < j)%nat ->
  not_after cmp x y.
Proof.
  intros Hl. revert i j x y.
  induction Hl as [|z l Hl IH Hz]; intros i j x y Hi Hj Hij.
  - done.
  - destruct j as [|j]; [lia|]. destruct i as [|i]; simpl in *.
    + injection Hi as ->. rewrite Forall_forall in Hz.
      apply Hz. by eapply list_elem_of_lookup_2.
    + eapply IH; eauto. lia.
Qed.
End Sort.

(** ** [slice] *)

Lemma js_slice_lookup {A} (l : list A) (start end_ : Z) (i : nat) (x : A) :
  js_slice l start end_ !! i = Some x ->
  l !! (Z.to_nat (relative_index (Z.of_nat (length l)) start) + i)%nat = Some x.
Proof.
  unfold js_slice. cbv zeta. rewrite lookup_take_Some, lookup_drop. tauto.
Qed.

Lemma js_slice_elem_of {A} (l : list A) (start end_ : Z) (x : A) :
  x ∈ js_slice l start end_ -> x ∈ l.
Proof.
  intros [i Hi]%list_elem_of_lookup_1.
  eapply list_elem_of_lookup_2, js_slice_lookup, Hi.
Qed.

Lemma js_slice_page {A} (l : list A) (n size : Z) :
  1 <= n -> 0 <= size ->
  js_slice l ((n - 1) * size) ((n - 1) * size + size) =
  elements_between l (Z.to_nat ((n - 1) * size))
    (Z.to_nat (Z.min (n * size) (Z.of_nat (length l)))).
Proof.
  intros Hn Hsize.
  replace (n * size) with ((n - 1) * size + size) by ring.
  assert (0 <= (n - 1) * size) as Hstart by (apply Z.mul_nonneg_nonneg; lia).
  generalize dependent ((n - 1) * size). intros start Hstart.
  unfold js_slice, elements_between, relative_index. cbv zeta.
  rewrite (proj2 (Z.ltb_ge start 0)), (proj2 (Z.ltb_ge (start + size) 0)) by lia.
  destruct (Z.le_gt_cases start (Z.of_nat (length l))) as [Hle|Hgt].
  - rewrite (Z.min_l start) by done. f_equal. lia.
  - rewrite !drop_ge by lia. by rewrite !take_nil.
Qed.

(** ** The filters *)

Lemma truthy_Some (b : option string) (s : string) :
  truthy b = Some s <-> b = Some s /\ s <> "".
Proof.
  unfold truthy. destruct b as [s'|]; [|split; [done|by intros [? _]]].
  destruct (String.eqb_spec s' "") as [->|Hne]; split.
  - done.
  - by intros [[= <-] Hne].
  - by intros [= <-].
  - by intros [[= <-] _].
Qed.

Lemma includes_In (l : list string) (x : string) :
  includes l x = true <-> In x l.
Proof.
  unfold includes. rewrite existsb_exists. split.
  - intros (y & Hy & ->%String.eqb_eq). done.
  - intros Hx. exists x. by rewrite String.eqb_refl.
Qed.

Lemma append_String (c : ascii) (s t : string) :
  String c s ++ t = String c (s ++ t).
Proof. reflexivity. Qed.


Lemma prefix_append (t s : string) :
  String.prefix t s = true <-> exists post : string, s = t ++ post.
Proof.
  revert t. induction s as [|b s IH]; intros [|a t]; simpl.
  - split; [by exists ""|done].
  - split; [done|]. by intros [post ?].
  - split; [by eexists|done].
  - destruct (ascii_dec a b) as [->|Hne].
    + rewrite IH. split; intros [post Hpost]; exists post;
        rewrite append_String in *; congruence.
    + split; [done|]. intros [post Hpost]. rewrite append_String in Hpost.
      congruence.
Qed.

Lemma str_includes_spec (s t : string) :
  str_includes s t = true <-> exists pre post : string, s = pre ++ t ++ post.
Proof.
  induction s as [|c s IH]; cbn [str_includes];
    rewrite orb_true_iff, prefix_append.
  - split.
    + intros [[post ->]|?]; [|done]. by exists "", post.
    + intros ([|? ?] & post & Hs); [|done]. left. by exists post.
  - rewrite IH. split.
    + intros [[post ->]|(pre & post & ->)]; [by exists "", post|].
      by exists (String c pre), post.
    + intros ([|c' pre] & post & Hs).
      * left. by exists post.
      * right. exists pre, post. rewrite append_String in Hs. congruence.
Qed.

Lemma In_opt_filter {A B} (t : option B) (f : B -> A -> bool) (l : list A) (o : A) :
  In o (match t with Some s => List.filter (f s) l | None => l end) <->
  In o l /\ (forall s, t = Some s -> f s o = true).
Proof.
  destruct t as [s|].
  - rewrite filter_In. split; intros [Ho Hf]; (split; [done|]).
    + by intros s' [= <-].
    + by apply Hf.
  - split; [|tauto]. intros Ho. split; [done|]. by intros s Hs.
Qed.

Lemma filterOrders_In (parseDate : string -> option Z)
    (toLowerCase : string -> string)
    (orders : list Order) (params : OrderQueryParamsDto) (o : Order) :
  In o (filterOrders parseDate toLowerCase orders params) <->
  In o orders /\ hospital_id (hospital o) = hospitalId params /\
  spec_matches parseDate toLowerCase params o.
Proof.
  unfold filterOrders. cbv zeta.
  rewrite (In_opt_filter (truthy (searchBloodBank params))
             (fun s order =>
                str_includes (toLowerCase (bb_name (bloodBank order))) (toLowerCase s))).
  rewrite (In_opt_filter (truthy (statuses params))
             (fun s order => includes (split "," s) (status order))).
  rewrite (In_opt_filter (truthy (bloodTypes params))
             (fun s order => includes (split "," s) (bloodType order))).
  rewrite (In_opt_filter (truthy (endDate params))
             (fun s order => date_le (Some (placedAt order)) (parseDate s))).
  rewrite (In_opt_filter (truthy (startDate params))
             (fun s order => date_ge (Some (placedAt order)) (parseDate s))).
  rewrite filter_In, String.eqb_eq.
  unfold spec_matches, spec_date_from, spec_date_to, spec_member, spec_search,
    contains_ci.
  setoid_rewrite truthy_Some. setoid_rewrite includes_In.
  setoid_rewrite str_includes_spec.
  unfold date_le, date_ge.
  split.
  - intros ((((([Ho Hh] & H1) & H2) & H3) & H4) & H5).
    repeat split; try done; intros s Hs Hne.
    + specialize (H1 s (conj Hs Hne)). destruct (parseDate s) as [t|]; [|done].
      exists t. split; [done|]. by apply Z.leb_le.
    + specialize (H2 s (conj Hs Hne)). destruct (parseDate s) as [t|]; [|done].
      exists t. split; [done|]. by apply Z.leb_le.
    + eauto.
    + eauto.
    + eauto.
  - intros (Ho & Hh & H1 & H2 & H3 & H4 & H5).
    repeat split; try done; intros s [Hs Hne].
    + destruct (H1 s Hs Hne) as (t & -> & Ht). by apply Z.leb_le.
    + destruct (H2 s Hs Hne) as (t & -> & Ht). by apply Z.leb_le.
    + eauto.
    + eauto.
    + eauto.
Qed.

(** ** The sorted sequence and its pages *)

Lemma sortedOrders_StronglySorted (parseDate : string -> option Z)
    (toLowerCase : string -> string)
    (orders : list Order) (params : OrderQueryParamsDto) :
  StronglySorted
    (cmp_le (or_default "placedAt" (sortBy params))
            (or_default "desc" (sortOrder params)))
    (sortedOrders parseDate toLowerCase orders params).
Proof.
  apply js_sort_StronglySorted.
  - apply compareOrders_total.
  - apply compareOrders_trans.
Qed.

Lemma sortedOrders_Permutation (parseDate : string -> option Z)
    (toLowerCase : string -> string)
    (orders : list Order) (params : OrderQueryParamsDto) :
  sortedOrders parseDate toLowerCase orders params ≡ₚ filterOrders parseDate toLowerCase orders params.
Proof. apply js_sort_Permutation. Qed.

Lemma sortedOrders_In (parseDate : string -> option Z)
    (toLowerCase : string -> string)
    (orders : list Order) (params : OrderQueryParamsDto) (o : Order) :
  o ∈ sortedOrders parseDate toLowerCase orders params <->
  In o orders /\ hospital_id (hospital o) = hospitalId params /\
  spec_matches parseDate toLowerCase params o.
Proof.
  rewrite sortedOrders_Permutation, list_elem_of_In. apply filterOrders_In.
Qed.

Lemma data_lookup (parseDate : string -> option Z)
    (toLowerCase : string -> string)
    (orders : list Order) (params : OrderQueryParamsDto) :
  exists k : nat, forall (i : nat) (o : Order),
    data (findAllWithFilters parseDate toLowerCase orders params) !! i = Some o ->
    sortedOrders parseDate toLowerCase orders params !! (k + i)%nat = Some o.
Proof.
  eexists. intros i o Hi. unfold findAllWithFilters in Hi. simpl in Hi.
  apply js_slice_lookup in Hi. exact Hi.
Qed.

Lemma data_elem_of (parseDate : string -> option Z)
    (toLowerCase : string -> string)
    (orders : list Order) (params : OrderQueryParamsDto) (o : Order) :
  o ∈ data (findAllWithFilters parseDate toLowerCase orders params) ->
  o ∈ sortedOrders parseDate toLowerCase orders params.
Proof. apply js_slice_elem_of. Qed.

Lemma isCompleted_not_active (o : Order) :
  isCompleted o = true -> isActive o = false.
Proof.
  unfold isCompleted, isActive. rewrite includes_In. simpl.
  intros [<-|[<-|[]]]; reflexivity.
Qed.

(** ** Properties of [findAllWithFilters] *)

(** C1. Tenant isolation: every order of a page returned by
    [findAllWithFilters] belongs to the requested hospital, whatever the
    stored orders and the query parameters are; an order of another hospital
    never appears in the result. *)
Theorem tenant_isolation (parseDate : string -> option Z)
    (toLowerCase : string -> string)
    (orders : list Order) (params : OrderQueryParamsDto) (o : Order) :
  o ∈ data (findAllWithFilters parseDate toLowerCase orders params) ->
  hospital_id (hospital o) = hospitalId params.
Proof.
  intros Ho%data_elem_of%sortedOrders_In. tauto.
Qed.

(** C2. Active first: in every page returned by [findAllWithFilters] an
    active order (pending, confirmed, in_transit) stands before every
    completed order (delivered, cancelled), for every sort column and every
    sort direction. *)
Theorem active_before_completed (parseDate : string -> option Z)
    (toLowerCase : string -> string)
    (orders : list Order) (params : OrderQueryParamsDto)
    (i j : nat) (a c : Order) :
  data (findAllWithFilters parseDate toLowerCase orders params) !! i = Some a ->
  data (findAllWithFilters parseDate toLowerCase orders params) !! j = Some c ->
  isActive a = true ->
  isCompleted c = true ->
  (i < j)%nat.
Proof.
  intros Hi Hj Ha Hc%isCompleted_not_active.
  destruct (data_lookup parseDate toLowerCase orders params) as [k Hk].
  destruct (Nat.lt_trichotomy i j) as [Hlt|[->|Hgt]]; [done| |].
  - rewrite Hi in Hj. injection Hj as ->. congruence.
  - apply Hk in Hi, Hj.
    assert (cmp_le (or_default "placedAt" (sortBy params))
              (or_default "desc" (sortOrder params)) c a) as Hca.
    { eapply (StronglySorted_lookup _ _ (k + j) (k + i));
        [apply sortedOrders_StronglySorted|done|done|lia]. }
    apply cmp_le_iff in Hca. intuition congruence.
Qed.

(** C3. Filter conjunction: every order of a page satisfies all the filter
    dimensions of the query at once, namely [placedAt] within each date bound
    that is set (bounds included), [bloodType] among the selected blood
    types, [status] among the selected statuses and the search text inside
    the blood bank name, letter case apart, that is once [toLowerCase] has
    folded both, whatever letters it folds. A dimension that is absent or
    empty constrains nothing: every stored order of the hospital that
    satisfies the dimensions that are set is in the filtered sequence, and
    with no dimension set every order of the hospital is. *)
Theorem filter_conjunction (parseDate : string -> option Z)
    (toLowerCase : string -> string)
    (orders : list Order) (params : OrderQueryParamsDto) :
  (forall o, o ∈ data (findAllWithFilters parseDate toLowerCase orders params) ->
     In o orders /\ spec_matches parseDate toLowerCase params o) /\
  (forall o, In o orders -> hospital_id (hospital o) = hospitalId params ->
     spec_matches parseDate toLowerCase params o ->
     o ∈ sortedOrders parseDate toLowerCase orders params) /\
  (truthy (startDate params) = None -> truthy (endDate params) = None ->
   truthy (bloodTypes params) = None -> truthy (statuses params) = None ->
   truthy (searchBloodBank params) = None ->
   forall o, In o orders -> hospital_id (hospital o) = hospitalId params ->
     o ∈ sortedOrders parseDate toLowerCase orders params).
Proof.
  split; [|split].
  - intros o Ho%data_elem_of%sortedOrders_In. tauto.
  - intros o Ho Hh Hm. apply sortedOrders_In. tauto.
  - intros H1 H2 H3 H4 H5 o Ho Hh. apply sortedOrders_In.
    split; [done|]. split; [done|].
    unfold spec_matches, spec_date_from, spec_date_to, spec_member, spec_search.
    repeat split; intros s Hs Hne;
      match goal with
      | H : truthy ?b = None |- _ =>
          match type of Hs with
          | b = _ =>
              assert (truthy b = Some s) as Hb by (by apply truthy_Some);
              congruence
          end
      end.
Qed.

(** C5. Sort monotonicity: in every page, two neighbouring orders of the
    same partition (both active, or both not) have the keys of the requested
    column in the requested direction, ascending for [asc] and descending
    otherwise. The direction bears on this second key only: between orders
    of different partitions the comparator answers the same for every
    direction, the active order first. *)
Theorem sort_monotonic (parseDate : string -> option Z)
    (toLowerCase : string -> string)
    (orders : list Order) (params : OrderQueryParamsDto)
    (i : nat) (a b : Order) :
  data (findAllWithFilters parseDate toLowerCase orders params) !! i = Some a ->
  data (findAllWithFilters parseDate toLowerCase orders params) !! S i = Some b ->
  isActive a = isActive b ->
  let column := or_default "placedAt" (sortBy params) in
  (if String.eqb (or_default "desc" (sortOrder params)) "asc"
   then sv_le (getSortValue a column) (getSortValue b column)
   else sv_le (getSortValue b column) (getSortValue a column)) /\
  (forall (x y : Order) (direction : string),
     isActive x <> isActive y ->
     compareOrders column direction x y = if isActive x then -1 else 1).
Proof.
  intros Hi Hj Hab column. split.
  - destruct (data_lookup parseDate toLowerCase orders params) as [k Hk].
    apply Hk in Hi, Hj.
    assert (cmp_le column (or_default "desc" (sortOrder params)) a b) as Hle.
    { eapply (StronglySorted_lookup _ _ (k + i) (k + S i));
        [apply sortedOrders_StronglySorted|done|done|lia]. }
    apply cmp_le_iff in Hle. destruct Hle as [[Ha Hb]|[_ Hle]]; [congruence|done].
  - intros x y direction Hxy. unfold compareOrders, isActive in *.
    destruct (includes activeStatuses (status x)),
             (includes activeStatuses (status y)); done.
Qed.

Lemma ceil_div_spec (a b : Z) :
  b <> 0 ->
  exists q, ceil_div a b = JsInt q /\
    (0 < b -> b * (q - 1) < a <= b * q) /\
    (b < 0 -> b * q <= a < b * (q - 1)).
Proof.
  intros Hb. unfold ceil_div. rewrite (proj2 (Z.eqb_neq b 0)) by done.
  eexists. split; [done|].
  pose proof (Z.div_mod (- a) b Hb) as Hdiv.
  split; intros Hsign.
  - pose proof (Z.mod_pos_bound (- a) b Hsign). nia.
  - pose proof (Z.mod_neg_bound (- a) b Hsign). nia.
Qed.

(** C4. Pagination slice law: for a page number [n >= 1] and a page size,
    the [data] of the result is the part of the filtered and sorted sequence,
    of length [L], from index [(n-1)*pageSize] up to [min (n*pageSize) L]; a
    page beyond the sequence is empty and no error, while [totalCount] is the
    number of filtered orders and [totalPages] its quotient by the page size,
    rounded up. *)
Theorem pagination_slice (parseDate : string -> option Z)
    (toLowerCase : string -> string)
    (orders : list Order) (params : OrderQueryParamsDto) :
  let n := or_default 1 (page params) in
  let size := or_default 25 (pageSize params) in
  let sorted := sortedOrders parseDate toLowerCase orders params in
  let L := Z.of_nat (length sorted) in
  let result := findAllWithFilters parseDate toLowerCase orders params in
  1 <= n -> 0 < size ->
  data result =
    elements_between sorted (Z.to_nat ((n - 1) * size))
      (Z.to_nat (Z.min (n * size) L)) /\
  (L <= (n - 1) * size -> data result = []) /\
  totalCount (pagination result) =
    Z.of_nat (length (filterOrders parseDate toLowerCase orders params)) /\
  exists pages, totalPages (pagination result) = JsInt pages /\
    size * (pages - 1) <
      Z.of_nat (length (filterOrders parseDate toLowerCase orders params)) <= size * pages.
Proof.
  intros n size sorted L result Hn Hsize.
  assert (data result =
    elements_between sorted (Z.to_nat ((n - 1) * size))
      (Z.to_nat (Z.min (n * size) L))) as Hdata.
  { unfold result, findAllWithFilters. simpl. apply js_slice_page; lia. }
  assert (length sorted = length (filterOrders parseDate toLowerCase orders params)) as Hlen.
  { unfold sorted. by rewrite sortedOrders_Permutation. }
  split; [done|]. split; [|split].
  - intros Hbeyond. rewrite Hdata. unfold elements_between.
    rewrite drop_ge by lia. apply take_nil.
  - unfold result, findAllWithFilters. simpl. fold sorted. by rewrite Hlen.
  - unfold result, findAllWithFilters. simpl. fold sorted size. rewrite Hlen.
    destruct (ceil_div_spec (Z.of_nat (length (filterOrders parseDate toLowerCase orders params)))
                size) as (q & Hq & Hpos & _); [lia|].
    exists q. split; [done|]. by apply Hpos.
Qed.

(** C9. Pagination metadata: in every result [totalPages] is [totalCount]
    divided by [pageSize] and rounded up, and a result whose [totalCount] is
    0 has [totalPages] 0 and no data. *)
Theorem total_pages_ceiling (parseDate : string -> option Z)
    (toLowerCase : string -> string)
    (orders : list Order) (params : OrderQueryParamsDto) :
  let result := findAllWithFilters parseDate toLowerCase orders params in
  let count := totalCount (pagination result) in
  let size := pg_pageSize (pagination result) in
  size <> 0 ->
  exists pages, totalPages (pagination result) = JsInt pages /\
    (0 < size -> size * (pages - 1) < count <= size * pages) /\
    (size < 0 -> size * pages <= count < size * (pages - 1)) /\
    (count = 0 -> pages = 0 /\ data result = []).
Proof.
  intros result count size Hsize.
  destruct (ceil_div_spec count size Hsize) as (q & Hq & Hpos & Hneg).
  exists q. split; [exact Hq|]. split; [done|]. split; [done|].
  intros Hcount. split.
  - destruct (Z.lt_trichotomy size 0) as [H|[H|H]]; [|done|].
    + specialize (Hneg H). nia.
    + specialize (Hpos H). nia.
  - unfold count, result, findAllWithFilters in *. simpl in *.
    destruct (sortedOrders parseDate toLowerCase orders params); [|done].
    unfold js_slice. simpl. by rewrite drop_nil, take_nil.
Qed.

(** ** The handler of [GET /orders] *)

(** C6. Validation: a request with a [pageSize] outside {25, 50, 100}, with
    a [page] below 1, with a [startDate] after its [endDate], or with an
    unknown [sortBy] column is rejected with a bad-request error; the
    rejection is the same whatever the service is, which is not called, so
    that no page is computed. *)
Theorem invalid_query_rejected (parseDate : string -> option Z)
    (params : OrderQueryParamsDto) :
  (exists n, pageSize params = Some n /\ ~ In n pageSizes) \/
  (exists n, page params = Some n /\ n < 1) \/
  (exists s e ts te,
     startDate params = Some s /\ endDate params = Some e /\
     s <> "" /\ e <> "" /\
     parseDate s = Some ts /\ parseDate e = Some te /\ te < ts) \/
  (exists c, sortBy params = Some c /\ ~ In c sortColumns) ->
  exists err, forall ordersService,
    controller_findAllWithFilters parseDate ordersService params = Rejected err.
Proof.
  intros Hbad. unfold controller_findAllWithFilters.
  destruct (dtoConstraintErrors params) as [|m ms] eqn:Herrs; [|by eexists].
  unfold dtoConstraintErrors in Herrs.
  apply app_eq_nil in Herrs as [Hsize Herrs].
  apply app_eq_nil in Herrs as [Hpage Hsort].
  destruct Hbad as [(n & Hn & Hnot)|[(n & Hn & Hlt)|[Hrange|(c & Hc & Hnot)]]].
  - rewrite Hn in Hsize. destruct (existsb (Z.eqb n) pageSizes) eqn:E; [|done].
    apply existsb_exists in E as (x & Hx & ->%Z.eqb_eq). done.
  - rewrite Hn in Hpage. destruct (Z.leb_spec 1 n); [lia|done].
  - destruct Hrange as (s & e & ts & te & Hs & He & Hs' & He' & Hts & Hte & Hlt).
    rewrite (proj2 (truthy_Some _ s)), (proj2 (truthy_Some _ e)) by done.
    cbv zeta. rewrite Hts, Hte. simpl.
    rewrite (proj2 (Z.ltb_lt te ts)) by done. by eexists.
  - rewrite Hc in Hsort. destruct (includes sortColumns c) eqn:E; [|done].
    apply includes_In in E. done.
Qed.

(** ** [updateStatus] *)

Lemma findIndex_None {A} (p : A -> bool) (l : list A) :
  findIndex p l = None <-> forall x, x ∈ l -> p x = false.
Proof.
  induction l as [|y l IH]; simpl.
  - split; [|done]. intros _ x Hx. by apply not_elem_of_nil in Hx.
  - destruct (p y) eqn:Hy.
    + split; [done|]. intros H. specialize (H y (list_elem_of_here y l)).
      congruence.
    + split.
      * intros Hnone x [->|Hx]%elem_of_cons; [done|].
        assert (findIndex p l = None) as Hl by (by destruct (findIndex p l)).
        by apply IH.
      * intros H. assert (findIndex p l = None) as ->; [|done].
        apply IH. intros x Hx. apply H. by apply list_elem_of_further.
Qed.

Lemma findIndex_Some {A} (p : A -> bool) (l : list A) (i : nat) :
  findIndex p l = Some i <->
  exists x, l !! i = Some x /\ p x = true /\
    forall j y, (j < i)%nat -> l !! j = Some y -> p y = false.
Proof.
  revert i. induction l as [|z l IH]; intros i; simpl.
  - split; [done|]. by intros (x & Hx & _).
  - destruct (p z) eqn:Hz.
    + split.
      * intros [= <-]. exists z. repeat split; [done|]. intros j y Hj. lia.
      * intros (x & Hx & Hpx & Hfirst). destruct i as [|i]; [done|].
        specialize (Hfirst 0%nat z). simpl in Hfirst.
        rewrite Hfirst in Hz by (done || lia). done.
    + destruct i as [|i].
      * split.
        -- intros H. by destruct (findIndex p l).
        -- intros (x & [= <-] & Hpx & _). congruence.
      * transitivity (findIndex p l = Some i).
        { destruct (findIndex p l); simpl; split; congruence. }
        rewrite IH.
        split; intros (x & Hx & Hpx & Hfirst); exists x;
          (repeat split; [done..|]).
        -- intros [|j] y Hj Hy; simpl in Hy.
           ++ by injection Hy as <-.
           ++ eapply Hfirst; [|done]. lia.
        -- intros j y Hj Hy. apply (Hfirst (S j) y); [lia|done].
Qed.

Lemma updateStatus_not_found (now : Z) (id newStatus : string) (st : ServiceState) :
  (forall o, o ∈ orders st -> order_id o <> id) ->
  updateStatus now id newStatus st = (notFoundResponse id newStatus, st).
Proof.
  intros Habsent. unfold updateStatus.
  assert (findIndex (fun order => String.eqb (order_id order) id) (orders st) = None)
    as ->; [|done].
  apply findIndex_None. intros o Ho. apply String.eqb_neq. by apply Habsent.
Qed.

Lemma updateStatus_found (now : Z) (id newStatus : string) (st : ServiceState)
    (i : nat) (o : Order) :
  orders st !! i = Some o ->
  order_id o = id ->
  (forall j o', (j < i)%nat -> orders st !! j = Some o' -> order_id o' <> id) ->
  updateStatus now id newStatus st =
    ({| message := "Order status updated successfully";
        status_data := UpdatedOrder (withStatus o newStatus now) |},
     {| orders := <[i := withStatus o newStatus now]> (orders st);
        emitted :=
          emitted st ++
          [(hospital_id (hospital o),
            {| ev_id := order_id o;
               ev_status := newStatus;
               ev_rider := rider o;
               ev_updatedAt := now;
               ev_deliveredAt := deliveredAt o |})] |}).
Proof.
  intros Hi Hid Hfirst. unfold updateStatus.
  assert (findIndex (fun order => String.eqb (order_id order) id) (orders st) = Some i)
    as ->.
  { apply findIndex_Some. exists o. split; [done|]. split.
    - by apply String.eqb_eq.
    - intros j y Hj Hy. apply String.eqb_neq. by eapply Hfirst. }
  by rewrite Hi.
Qed.

(** C10. [updateStatus] on an id that no stored order has leaves the store
    as it is, emits no event and answers the message 'Order status updated
    successfully' all the same. On an id that is stored, the first order with
    that id gets the new status and a new [updatedAt], its other fields are
    unchanged, and so is every other order. *)
Theorem updateStatus_effect (now : Z) (id newStatus : string) (st : ServiceState) :
  ((forall o, o ∈ orders st -> order_id o <> id) ->
   updateStatus now id newStatus st =
     ({| message := "Order status updated successfully";
         status_data := IdAndStatus id newStatus |}, st)) /\
  (forall i o,
     orders st !! i = Some o ->
     order_id o = id ->
     (forall j o', (j < i)%nat -> orders st !! j = Some o' -> order_id o' <> id) ->
     let result := updateStatus now id newStatus st in
     exists o',
       message (fst result) = "Order status updated successfully" /\
       status_data (fst result) = UpdatedOrder o' /\
       orders (snd result) !! i = Some o' /\
       status o' = newStatus /\ updatedAt o' = now /\
       same_but_status o o' /\
       length (orders (snd result)) = length (orders st) /\
       (forall j, j <> i -> orders (snd result) !! j = orders st !! j)).
Proof.
  split.
  - apply updateStatus_not_found.
  - intros i o Hi Hid Hfirst result. unfold result.
    rewrite (updateStatus_found now id newStatus st i o Hi Hid Hfirst). simpl.
    exists (withStatus o newStatus now). repeat split.
    + apply list_lookup_insert_eq. by eapply lookup_lt_Some.
    + apply length_insert.
    + intros j Hj. by apply list_lookup_insert_ne.
Qed.

(** C7, as the service has it. [updateStatus] writes the status and
    [updatedAt] and nothing else: whatever the new status is, the
    [deliveredAt], [confirmedAt] and [cancelledAt] of every stored order are
    after the call what they were before it. *)
Theorem updateStatus_keeps_timestamps (now : Z) (id newStatus : string)
    (st : ServiceState) (i : nat) (o' : Order) :
  orders (snd (updateStatus now id newStatus st)) !! i = Some o' ->
  exists o, orders st !! i = Some o /\
    deliveredAt o' = deliveredAt o /\
    confirmedAt o' = confirmedAt o /\
    cancelledAt o' = cancelledAt o.
Proof.
  unfold updateStatus.
  destruct (findIndex _ (orders st)) as [k|]; [|by eauto].
  destruct (orders st !! k) as [o|] eqn:Hk; [|by eauto]. simpl.
  destruct (decide (k = i)) as [->|Hne].
  - rewrite list_lookup_insert_eq by (by eapply lookup_lt_Some).
    intros [= <-]. by exists o.
  - rewrite list_lookup_insert_ne by done. by eauto.
Qed.

(** C7, as stated, fails: the pending order O1, first told delivered, then
    confirmed, then cancelled, has each of the three statuses in turn and
    none of the three timestamps. *)
Lemma updateStatus_sets_no_timestamp :
  orders sampleState !! 1%nat = Some sampleO1 /\
  map (fun newStatus =>
         option_map
           (fun o => (status o, deliveredAt o, confirmedAt o, cancelledAt o))
           (orders (snd (updateStatus 1704240000000 "O1" newStatus sampleState))
              !! 1%nat))
      ["delivered"; "confirmed"; "cancelled"] =
    [ Some ("delivered", None, None, None);
      Some ("confirmed", None, None, None);
      Some ("cancelled", None, None, None) ].
Proof. split; reflexivity. Qed.

(** ** Sorting by [deliveredAt] *)

(** C8, as the service has it. An order without [deliveredAt] has the sort
    key 0, the timestamp of 1970-01-01T00:00:00Z: sorted by [deliveredAt] in
    ascending order it stands, in every page, before every order of its
    partition that was delivered after that instant. *)
Theorem absent_deliveredAt_sorts_as_epoch (parseDate : string -> option Z)
    (toLowerCase : string -> string)
    (orders : list Order) (params : OrderQueryParamsDto)
    (i j : nat) (a b : Order) (t : Z) :
  sortBy params = Some "deliveredAt" ->
  sortOrder params = Some "asc" ->
  data (findAllWithFilters parseDate toLowerCase orders params) !! i = Some a ->
  data (findAllWithFilters parseDate toLowerCase orders params) !! j = Some b ->
  isActive a = isActive b ->
  deliveredAt a = None ->
  deliveredAt b = Some t ->
  0 < t ->
  getSortValue a "deliveredAt" = SVNum 0 /\ (i < j)%nat.
Proof.
  intros Hby Hasc Hi Hj Hpart Ha Hb Ht.
  assert (getSortValue a "deliveredAt" = SVNum 0) as Hka.
  { unfold getSortValue. simpl. by rewrite Ha. }
  assert (getSortValue b "deliveredAt" = SVNum t) as Hkb.
  { unfold getSortValue. simpl. by rewrite Hb. }
  split; [done|].
  destruct (data_lookup parseDate toLowerCase orders params) as [k Hk].
  destruct (Nat.lt_trichotomy i j) as [Hlt|[->|Hgt]]; [done| |].
  - rewrite Hi in Hj. injection Hj as ->. congruence.
  - apply Hk in Hi, Hj.
    pose proof (sortedOrders_StronglySorted parseDate toLowerCase orders params) as Hsorted.
    rewrite Hby, Hasc in Hsorted. simpl in Hsorted.
    assert (cmp_le "deliveredAt" "asc" b a) as Hba.
    { eapply (StronglySorted_lookup _ _ (k + j) (k + i)); [done|done|done|lia]. }
    apply cmp_le_iff in Hba. rewrite Hka, Hkb in Hba.
    destruct Hba as [[? ?]|[_ Hle]]; [congruence|]. simpl in Hle. lia.
Qed.

(** C8, as stated, fails: of two completed orders of one hospital, sorted by
    [deliveredAt] in ascending order, the one that was never delivered comes
    after the one delivered a millisecond before 1970-01-01T00:00:00Z. *)
Lemma absent_deliveredAt_not_lowest :
  isActive cancelledOrder = isActive earlyOrder /\
  deliveredAt cancelledOrder = None /\
  deliveredAt earlyOrder = Some (-1) /\
  data (findAllWithFilters isoDate asciiLowerCase [cancelledOrder; earlyOrder] byDeliveredAtAsc) =
    [earlyOrder; cancelledOrder].
Proof. repeat split. Qed.

(** The service by itself refuses no sort column: a column that is none of
    the cases of [getSortValue] is sorted as [placedAt]. *)
Lemma getSortValue_unknown_column (order : Order) (column : string) :
  ~ In column sortColumns ->
  getSortValue order column = SVNum (placedAt order).
Proof.
  intros Hnot. unfold getSortValue.
  repeat match goal with
         | |- context [String.eqb column ?c] =>
             destruct (String.eqb_spec column c) as [->|_];
             [exfalso; apply Hnot; simpl; auto 10|]
         end.
  done.
Qed.

(** ** Scenarios of the specification *)

(** Active first overrides the date order. *)
Example scenario_active_first :
  map order_id
    (data (findAllWithFilters isoDate asciiLowerCase
             [ sampleOrder "O1" "HOSP-001" "pending" 1704153600000 None;
               sampleOrder "O2" "HOSP-001" "delivered" 1704067200000 None ]
             (sampleParams "HOSP-001"))) = ["O1"; "O2"].
Proof. reflexivity. Qed.

(** No order at all: no page, no data. *)
Example scenario_empty :
  findAllWithFilters isoDate asciiLowerCase [] (sampleParams "HOSP-001") =
    {| data := [];
       pagination := {| currentPage := 1; pg_pageSize := 25;
                        totalCount := 0; totalPages := JsInt 0 |} |}.
Proof. reflexivity. Qed.

(** Orders that tie on the sort key keep the order of the store. *)
Example scenario_stable :
  map order_id
    (data (findAllWithFilters isoDate asciiLowerCase
             [ sampleOrder "O7" "HOSP-001" "pending" 1704153600000 None;
               sampleOrder "O8" "HOSP-001" "pending" 1704153600000 None;
               sampleOrder "O9" "HOSP-001" "pending" 1704153600000 None ]
             (sampleParams "HOSP-001"))) = ["O7"; "O8"; "O9"].
Proof. reflexivity. Qed.

(** The search folds the letters that [toLowerCase] folds, accented ones
    included. *)
Example scenario_accented_search :
  map order_id
    (data (findAllWithFilters isoDate utf8LowerCase [ecoleOrder; sampleO1]
             (withSearch (sampleParams "HOSP-001") "école"))) = ["O10"].
Proof. reflexivity. Qed.

(** ** The properties at work on the sample data *)

Lemma tenant_isolation_witness :
  sampleO1 ∈ data (findAllWithFilters isoDate asciiLowerCase sampleStore (sampleParams "HOSP-001")) /\
  hospital_id (hospital sampleO1) = "HOSP-001".
Proof.
  assert (sampleO1 ∈
            data (findAllWithFilters isoDate asciiLowerCase sampleStore (sampleParams "HOSP-001")))
    as Hin by (vm_compute; apply list_elem_of_here).
  split; [exact Hin|].
  exact (tenant_isolation isoDate asciiLowerCase sampleStore (sampleParams "HOSP-001") sampleO1 Hin).
Defined.

Lemma active_before_completed_witness :
  data (findAllWithFilters isoDate asciiLowerCase sampleStore (sampleParams "HOSP-001")) !! 0%nat
    = Some sampleO1 /\
  data (findAllWithFilters isoDate asciiLowerCase sampleStore (sampleParams "HOSP-001")) !! 1%nat
    = Some sampleO2 /\
  isActive sampleO1 = true /\ isCompleted sampleO2 = true /\ (0 < 1)%nat.
Proof.
  repeat split; try reflexivity.
  apply (active_before_completed isoDate asciiLowerCase sampleStore (sampleParams "HOSP-001")
           0 1 sampleO1 sampleO2); reflexivity.
Defined.

Lemma filter_conjunction_witness :
  sampleO1 ∈ data (findAllWithFilters isoDate asciiLowerCase sampleStore filteredParams) /\
  spec_matches isoDate asciiLowerCase filteredParams sampleO1.
Proof.
  assert (sampleO1 ∈ data (findAllWithFilters isoDate asciiLowerCase sampleStore filteredParams))
    as Hin by (vm_compute; apply list_elem_of_here).
  split; [exact Hin|].
  exact (proj2 (proj1 (filter_conjunction isoDate asciiLowerCase sampleStore filteredParams)
                  sampleO1 Hin)).
Defined.

Lemma sort_monotonic_witness :
  data (findAllWithFilters isoDate asciiLowerCase [sampleO1; sampleO6] (sampleParams "HOSP-001"))
    !! 0%nat = Some sampleO6 /\
  data (findAllWithFilters isoDate asciiLowerCase [sampleO1; sampleO6] (sampleParams "HOSP-001"))
    !! 1%nat = Some sampleO1 /\
  isActive sampleO6 = isActive sampleO1 /\
  sv_le (getSortValue sampleO1 "placedAt") (getSortValue sampleO6 "placedAt").
Proof.
  repeat split; try reflexivity.
  exact (proj1 (sort_monotonic isoDate asciiLowerCase [sampleO1; sampleO6] (sampleParams "HOSP-001")
                  0 sampleO6 sampleO1 eq_refl eq_refl eq_refl)).
Defined.

Lemma pagination_slice_witness :
  1 <= 1 /\ 0 < 25 /\
  data (findAllWithFilters isoDate asciiLowerCase sampleStore (sampleParams "HOSP-001")) =
    elements_between (sortedOrders isoDate asciiLowerCase sampleStore (sampleParams "HOSP-001")) 0 2.
Proof.
  assert (1 <= 1) as Hn by lia. assert (0 < 25) as Hsize by lia.
  split; [exact Hn|]. split; [exact Hsize|].
  exact (proj1 (pagination_slice isoDate asciiLowerCase sampleStore (sampleParams "HOSP-001")
                  Hn Hsize)).
Defined.

Lemma total_pages_ceiling_witness :
  25 <> 0 /\
  exists pages,
    totalPages (pagination (findAllWithFilters isoDate asciiLowerCase sampleStore
                              (sampleParams "HOSP-001"))) = JsInt pages /\
    (0 < 25 -> 25 * (pages - 1) < 2 <= 25 * pages).
Proof.
  assert (25 <> 0) as Hsize by lia.
  split; [exact Hsize|].
  destruct (total_pages_ceiling isoDate asciiLowerCase sampleStore (sampleParams "HOSP-001") Hsize)
    as (pages & Hpages & Hpos & _).
  exists pages. split; [exact Hpages | exact Hpos].
Defined.

Lemma invalid_query_rejected_witness :
  startDate badRangeParams = Some "2024-02-01" /\
  endDate badRangeParams = Some "2024-01-01" /\
  isoDate "2024-02-01" = Some 1706745600000 /\
  isoDate "2024-01-01" = Some 1704067200000 /\
  1704067200000 < 1706745600000 /\
  exists err, forall ordersService,
    controller_findAllWithFilters isoDate ordersService badRangeParams = Rejected err.
Proof.
  repeat split; try reflexivity.
  apply (invalid_query_rejected isoDate badRangeParams).
  right. right. left.
  exists "2024-02-01", "2024-01-01", 1706745600000, 1704067200000.
  repeat split; try reflexivity; discriminate.
Defined.

Lemma updateStatus_keeps_timestamps_witness :
  orders (snd (updateStatus 1704240000000 "O1" "delivered" sampleState)) !! 1%nat =
    Some (withStatus sampleO1 "delivered" 1704240000000) /\
  exists o, orders sampleState !! 1%nat = Some o /\
    deliveredAt (withStatus sampleO1 "delivered" 1704240000000) = deliveredAt o /\
    confirmedAt (withStatus sampleO1 "delivered" 1704240000000) = confirmedAt o /\
    cancelledAt (withStatus sampleO1 "delivered" 1704240000000) = cancelledAt o.
Proof.
  split; [reflexivity|].
  exact (updateStatus_keeps_timestamps 1704240000000 "O1" "delivered" sampleState 1
           (withStatus sampleO1 "delivered" 1704240000000) eq_refl).
Defined.

Lemma absent_deliveredAt_sorts_as_epoch_witness :
  data (findAllWithFilters isoDate asciiLowerCase [sampleO2; cancelledOrder] byDeliveredAtAsc)
    !! 0%nat = Some cancelledOrder /\
  data (findAllWithFilters isoDate asciiLowerCase [sampleO2; cancelledOrder] byDeliveredAtAsc)
    !! 1%nat = Some sampleO2 /\
  isActive cancelledOrder = isActive sampleO2 /\
  deliveredAt cancelledOrder = None /\
  deliveredAt sampleO2 = Some 1704070800000 /\
  0 < 1704070800000 /\
  getSortValue cancelledOrder "deliveredAt" = SVNum 0 /\ (0 < 1)%nat.
Proof.
  split; [reflexivity|]. split; [reflexivity|]. split; [reflexivity|].
  split; [reflexivity|]. split; [reflexivity|]. split; [reflexivity|].
  apply (absent_deliveredAt_sorts_as_epoch isoDate asciiLowerCase [sampleO2; cancelledOrder]
           byDeliveredAtAsc 0 1 cancelledOrder sampleO2 1704070800000);
    reflexivity.
Defined.

Lemma updateStatus_effect_witness :
  updateStatus 1704240000000 "O9" "delivered" sampleState =
    ({| message := "Order status updated successfully";
        status_data := IdAndStatus "O9" "delivered" |}, sampleState) /\
  exists o',
    orders (snd (updateStatus 1704240000000 "O1" "delivered" sampleState)) !! 1%nat
      = Some o' /\
    status o' = "delivered" /\ updatedAt o' = 1704240000000 /\
    same_but_status sampleO1 o'.
Proof.
  destruct (updateStatus_effect 1704240000000 "O9" "delivered" sampleState)
    as [Habsent _].
  destruct (updateStatus_effect 1704240000000 "O1" "delivered" sampleState)
    as [_ Hpresent].
  split.
  - apply Habsent. intros o Ho. vm_compute in Ho.
    repeat (apply elem_of_cons in Ho as [->|Ho]; [discriminate|]).
    by apply elem_of_nil in Ho.
  - destruct (Hpresent 1%nat sampleO1 eq_refl eq_refl) as (o' & _ & _ & H1 & H2 & H3 & H4 & _).
    + intros [|[|j]] o' Hj Ho'; [|lia|lia].
      injection Ho' as <-. discriminate.
    + exists o'. repeat split; (exact H1 || exact H2 || exact H3 || apply H4).
Defined.

(** * Further properties of the code *)

(** ** Pages *)

Lemma js_slice_forward {A} (l : list A) (start size : Z) :
  0 <= start -> 0 <= size ->
  js_slice l start (start + size) = take (Z.to_nat size) (drop (Z.to_nat start) l).
Proof.
  intros Hstart Hsize. unfold js_slice, relative_index. cbv zeta.
  rewrite (proj2 (Z.ltb_ge start 0)), (proj2 (Z.ltb_ge (start + size) 0)) by lia.
  destruct (Z.le_gt_cases start (Z.of_nat (length l))) as [Hle|Hgt].
  - rewrite (Z.min_l start) by done.
    destruct (Z.le_gt_cases (start + size) (Z.of_nat (length l))) as [Hin|Hout].
    + f_equal. lia.
    + rewrite !take_ge; [done|rewrite length_drop; lia|rewrite length_drop; lia].
  - rewrite !drop_ge by lia. by rewrite !take_nil.
Qed.

Lemma js_slice_to_zero {A} (l : list A) (start : Z) : js_slice l start 0 = [].
Proof.
  unfold js_slice, relative_index. cbv zeta. simpl.
  apply length_zero_iff_nil. rewrite length_take, length_drop.
  destruct (Z.ltb_spec start 0); lia.
Qed.

Lemma concat_chunks {A} (l : list A) (size k : nat) :
  concat (map (fun n => take size (drop ((n - 1) * size) l)) (seq 1 k)) =
  take (k * size) l.
Proof.
  induction k as [|k IH]; [done|].
  rewrite seq_S, map_app, concat_app, IH. simpl.
  rewrite app_nil_r, Nat.sub_0_r, take_take_drop. f_equal. lia.
Qed.

(** A page never holds more orders than the page size, whatever the page
    number is, zero and negative numbers included. *)
Theorem page_length_bound (parseDate : string -> option Z)
    (toLowerCase : string -> string)
    (orders : list Order) (params : OrderQueryParamsDto) :
  0 <= or_default 25 (pageSize params) ->
  Z.of_nat (length (data (findAllWithFilters parseDate toLowerCase orders params))) <=
    or_default 25 (pageSize params).
Proof.
  intros Hsize. unfold findAllWithFilters. simpl.
  generalize (sortedOrders parseDate toLowerCase orders params). intros l.
  generalize dependent (or_default 25 (pageSize params)). intros size Hsize.
  generalize (or_default 1 (page params)). intros n.
  assert ((n - 1) * size < 0 -> 0 <= (n - 1) * size + size ->
          (n - 1) * size + size = 0) as Hcross.
  { replace ((n - 1) * size + size) with (n * size) by ring. intros Hneg Hend.
    destruct (Z.le_gt_cases 1 n) as [Hn|Hn].
    - pose proof (Z.mul_nonneg_nonneg (n - 1) size). lia.
    - pose proof (Z.mul_nonpos_nonneg n size). lia. }
  generalize dependent ((n - 1) * size). intros start Hcross.
  unfold js_slice, relative_index. cbv zeta. rewrite length_take, length_drop.
  destruct (Z.ltb_spec start 0), (Z.ltb_spec (start + size) 0); lia.
Qed.

(** Page 0 is no page: the service answers it with no data, and with the
    count of the orders that match all the same. *)
Theorem page_zero_empty (parseDate : string -> option Z)
    (toLowerCase : string -> string)
    (orders : list Order) (params : OrderQueryParamsDto) :
  page params = Some 0 ->
  data (findAllWithFilters parseDate toLowerCase orders params) = [] /\
  totalCount (pagination (findAllWithFilters parseDate toLowerCase orders params)) =
    Z.of_nat (length (filterOrders parseDate toLowerCase orders params)).
Proof.
  intros Hpage. unfold findAllWithFilters. rewrite Hpage. cbv zeta.
  cbn [data pagination totalCount or_default]. split.
  - replace ((0 - 1) * or_default 25 (pageSize params)
             + or_default 25 (pageSize params)) with 0 by ring.
    apply js_slice_to_zero.
  - by rewrite sortedOrders_Permutation.
Qed.

(** The pages 1 to [totalPages] of a query, one after the other, are the
    filtered and sorted sequence: paging loses no order and repeats none. *)
Theorem pages_cover (parseDate : string -> option Z)
    (toLowerCase : string -> string)
    (orders : list Order) (params : OrderQueryParamsDto) (size pages : Z) :
  pageSize params = Some size ->
  0 < size ->
  totalPages (pagination (findAllWithFilters parseDate toLowerCase orders params)) = JsInt pages ->
  concat
    (map (fun n => data (findAllWithFilters parseDate toLowerCase orders
                           (withPage params (Z.of_nat n))))
         (seq 1 (Z.to_nat pages))) =
  sortedOrders parseDate toLowerCase orders params.
Proof.
  intros Hsize Hpos Hpages.
  unfold findAllWithFilters in Hpages. simpl in Hpages. rewrite Hsize in Hpages.
  simpl in Hpages.
  destruct (ceil_div_spec
              (Z.of_nat (length (sortedOrders parseDate toLowerCase orders params))) size)
    as (q & Hq & Hceil & _); [lia|].
  rewrite Hpages in Hq. injection Hq as <-. specialize (Hceil Hpos).
  transitivity
    (concat (map (fun n => take (Z.to_nat size)
                             (drop ((n - 1) * Z.to_nat size)
                                (sortedOrders parseDate toLowerCase orders params)))
               (seq 1 (Z.to_nat pages)))).
  - f_equal. apply map_ext_in. intros n Hn%in_seq.
    unfold findAllWithFilters. simpl. rewrite Hsize. simpl.
    change (sortedOrders parseDate toLowerCase orders (withPage params (Z.of_nat n)))
      with (sortedOrders parseDate toLowerCase orders params).
    rewrite js_slice_forward by nia. f_equal. f_equal. nia.
  - rewrite concat_chunks. apply take_ge. nia.
Qed.

(** ** Sorting *)

Lemma js_insert_ties {A} (cmp : A -> A -> Z) (x a : A) (l : list A) :
  (forall u v w, not_after cmp u v -> not_after cmp v w -> not_after cmp u w) ->
  (forall u v, cmp u v = 0 -> cmp v u <= 0) ->
  List.filter (fun y => cmp x y =? 0) (js_insert cmp a l) =
  List.filter (fun y => cmp x y =? 0) (a :: l).
Proof.
  intros Htrans Hsym. induction l as [|y l IH]; [done|].
  cbn [js_insert]. destruct (Z.leb_spec (cmp a y) 0) as [Hay|Hay]; [done|].
  cbn [List.filter] in *. rewrite IH.
  destruct (Z.eqb_spec (cmp x a) 0) as [Hxa|_],
           (Z.eqb_spec (cmp x y) 0) as [Hxy|_]; try done.
  assert (not_after cmp a y) as Hle; [|unfold not_after in Hle; lia].
  apply (Htrans a x y); unfold not_after; [by apply Hsym|lia].
Qed.

Lemma js_sort_ties {A} (cmp : A -> A -> Z) (x : A) (l : list A) :
  (forall u v w, not_after cmp u v -> not_after cmp v w -> not_after cmp u w) ->
  (forall u v, cmp u v = 0 -> cmp v u <= 0) ->
  List.filter (fun y => cmp x y =? 0) (js_sort cmp l) =
  List.filter (fun y => cmp x y =? 0) l.
Proof.
  intros Htrans Hsym. induction l as [|a l IH]; [done|].
  cbn [js_sort]. rewrite js_insert_ties by done.
  cbn [List.filter]. by rewrite IH.
Qed.

Lemma js_sort_ext {A} (cmp cmp' : A -> A -> Z) (l : list A) :
  (forall a b, cmp a b = cmp' a b) -> js_sort cmp l = js_sort cmp' l.
Proof.
  intros Hext. induction l as [|x l IH]; [done|].
  cbn [js_sort]. rewrite IH. generalize (js_sort cmp' l). intros l'.
  induction l' as [|y l' IH']; [done|].
  cbn [js_insert]. by rewrite Hext, IH'.
Qed.

Lemma filter_sublist_of {A} (p : A -> bool) (l : list A) :
  List.filter p l `sublist_of` l.
Proof.
  induction l as [|x l IH]; simpl; [constructor|].
  destruct (p x); by constructor.
Qed.

Lemma filterOrders_sublist (parseDate : string -> option Z)
    (toLowerCase : string -> string)
    (orders : list Order) (params : OrderQueryParamsDto) :
  filterOrders parseDate toLowerCase orders params `sublist_of` orders.
Proof.
  unfold filterOrders. cbv zeta.
  repeat match goal with
         | |- context [match ?t with Some _ => _ | None => _ end] => destruct t
         end;
    repeat (etrans; [apply filter_sublist_of|]); done.
Qed.

(** The sort is stable: the orders that tie with a given order (same
    partition, same key) stand in the sorted sequence in the order in which
    the filtered sequence, and so the store, has them. *)
Theorem sort_stable (parseDate : string -> option Z)
    (toLowerCase : string -> string)
    (orders : list Order) (params : OrderQueryParamsDto) (x : Order) :
  let column := or_default "placedAt" (sortBy params) in
  let direction := or_default "desc" (sortOrder params) in
  List.filter (ties column direction x) (sortedOrders parseDate toLowerCase orders params) =
    List.filter (ties column direction x) (filterOrders parseDate toLowerCase orders params) /\
  filterOrders parseDate toLowerCase orders params `sublist_of` orders.
Proof.
  intros column direction. split; [|apply filterOrders_sublist].
  apply js_sort_ties.
  - apply compareOrders_trans.
  - intros u v Huv. rewrite compareOrders_antisym, Huv. done.
Qed.

(** The service refuses no sort column: a column that [getSortValue] does
    not know is sorted as [placedAt], and the whole answer is the one for
    [placedAt]. *)
Theorem unknown_column_sorts_as_placedAt (parseDate : string -> option Z)
    (toLowerCase : string -> string)
    (orders : list Order) (params : OrderQueryParamsDto)
    (column direction : string) :
  ~ In column sortColumns ->
  findAllWithFilters parseDate toLowerCase orders (withSort params column direction) =
  findAllWithFilters parseDate toLowerCase orders (withSort params "placedAt" direction).
Proof.
  intros Hunknown.
  assert (sortedOrders parseDate toLowerCase orders (withSort params column direction) =
          sortedOrders parseDate toLowerCase orders (withSort params "placedAt" direction))
    as Hsorted.
  { unfold sortedOrders. apply js_sort_ext. intros a b. cbn [withSort sortBy sortOrder or_default].
    unfold compareOrders. by rewrite !(getSortValue_unknown_column _ column). }
  unfold findAllWithFilters. by rewrite Hsorted.
Qed.

(** Every sort direction but [asc] is the descending one. *)
Theorem direction_but_asc_is_desc (parseDate : string -> option Z)
    (toLowerCase : string -> string)
    (orders : list Order) (params : OrderQueryParamsDto)
    (column direction : string) :
  direction <> "asc" ->
  findAllWithFilters parseDate toLowerCase orders (withSort params column direction) =
  findAllWithFilters parseDate toLowerCase orders (withSort params column "desc").
Proof.
  intros Hdir.
  assert (sortedOrders parseDate toLowerCase orders (withSort params column direction) =
          sortedOrders parseDate toLowerCase orders (withSort params column "desc"))
    as Hsorted.
  { unfold sortedOrders. apply js_sort_ext. intros a b. cbn [withSort sortBy sortOrder or_default].
    unfold compareOrders. by rewrite (proj2 (String.eqb_neq direction "asc")). }
  unfold findAllWithFilters. by rewrite Hsorted.
Qed.

(** ** Filters *)

Lemma no_match_empty (parseDate : string -> option Z)
    (toLowerCase : string -> string)
    (orders : list Order) (params : OrderQueryParamsDto) :
  (forall o, ~ In o (filterOrders parseDate toLowerCase orders params)) ->
  data (findAllWithFilters parseDate toLowerCase orders params) = [] /\
  totalCount (pagination (findAllWithFilters parseDate toLowerCase orders params)) = 0.
Proof.
  intros Hnone.
  assert (sortedOrders parseDate toLowerCase orders params = []) as Hsorted.
  { unfold sortedOrders.
    destruct (filterOrders parseDate toLowerCase orders params) as [|o l]; [done|].
    destruct (Hnone o). by left. }
  unfold findAllWithFilters. rewrite Hsorted. cbv zeta.
  cbn [data pagination totalCount length]. split; [|done].
  unfold js_slice. cbn [length]. by rewrite drop_nil, take_nil.
Qed.

Lemma asciiLowerCase_empty (s : string) : asciiLowerCase s = "" <-> s = "".
Proof. destruct s; simpl; split; congruence. Qed.

(** A date bound that is no date matches no order: a non-empty [startDate]
    or [endDate] that [Date] cannot read empties the answer; it is not
    ignored. *)
Theorem unreadable_date_matches_nothing (parseDate : string -> option Z)
    (toLowerCase : string -> string)
    (orders : list Order) (params : OrderQueryParamsDto) (s : string) :
  startDate params = Some s \/ endDate params = Some s ->
  s <> "" ->
  parseDate s = None ->
  data (findAllWithFilters parseDate toLowerCase orders params) = [] /\
  totalCount (pagination (findAllWithFilters parseDate toLowerCase orders params)) = 0.
Proof.
  intros Hbound Hne Hparse. apply no_match_empty.
  intros o (_ & _ & Hfrom & Hto & _)%filterOrders_In.
  destruct Hbound as [Hs|Hs].
  - destruct (Hfrom s Hs Hne) as (t & Ht & _). congruence.
  - destruct (Hto s Hs Hne) as (t & Ht & _). congruence.
Qed.

(** The service by itself does not refuse a date range whose start is after
    its end: it answers with no order. *)
Theorem inverted_range_matches_nothing (parseDate : string -> option Z)
    (toLowerCase : string -> string)
    (orders : list Order) (params : OrderQueryParamsDto)
    (s e : string) (ts te : Z) :
  startDate params = Some s -> endDate params = Some e ->
  s <> "" -> e <> "" ->
  parseDate s = Some ts -> parseDate e = Some te ->
  te < ts ->
  data (findAllWithFilters parseDate toLowerCase orders params) = [] /\
  totalCount (pagination (findAllWithFilters parseDate toLowerCase orders params)) = 0.
Proof.
  intros Hs He Hs' He' Hts Hte Hlt. apply no_match_empty.
  intros o (_ & _ & Hfrom & Hto & _)%filterOrders_In.
  destruct (Hfrom s Hs Hs') as (t1 & Ht1 & Hge).
  destruct (Hto e He He') as (t2 & Ht2 & Hle).
  assert (t1 = ts) by congruence. assert (t2 = te) by congruence. lia.
Qed.

(** The search of the blood bank name does not see the letter case of the
    search text: two texts with the same lower-case form have the same
    answer. This holds for every case fold that, as [toLowerCase] does, turns
    the empty string, and no other, into the empty string. *)
Theorem search_ignores_case (parseDate : string -> option Z)
    (toLowerCase : string -> string)
    (orders : list Order) (params : OrderQueryParamsDto) (s s' : string) :
  (forall x, toLowerCase x = "" <-> x = "") ->
  toLowerCase s = toLowerCase s' ->
  findAllWithFilters parseDate toLowerCase orders (withSearch params s) =
  findAllWithFilters parseDate toLowerCase orders (withSearch params s').
Proof.
  intros Hempty Hcase.
  assert (filterOrders parseDate toLowerCase orders (withSearch params s) =
          filterOrders parseDate toLowerCase orders (withSearch params s')) as Hfilter.
  { unfold filterOrders. cbv zeta.
    cbn [withSearch hospitalId startDate endDate bloodTypes statuses
         searchBloodBank truthy].
    destruct (String.eqb_spec s "") as [->|Hs], (String.eqb_spec s' "") as [->|Hs'].
    - done.
    - exfalso. apply Hs'. apply Hempty. rewrite <- Hcase. by apply Hempty.
    - exfalso. apply Hs. apply Hempty. rewrite Hcase. by apply Hempty.
    - by rewrite Hcase. }
  unfold findAllWithFilters, sortedOrders. by rewrite Hfilter.
Qed.

(** ** More on [updateStatus] *)

Lemma updateStatus_cases (now : Z) (id newStatus : string) (st : ServiceState) :
  ((forall o, o ∈ orders st -> order_id o <> id) /\
   updateStatus now id newStatus st = (notFoundResponse id newStatus, st)) \/
  (exists i o,
     orders st !! i = Some o /\ order_id o = id /\
     (forall j o', (j < i)%nat -> orders st !! j = Some o' -> order_id o' <> id) /\
     snd (updateStatus now id newStatus st) =
       {| orders := <[i := withStatus o newStatus now]> (orders st);
          emitted :=
            emitted st ++
            [(hospital_id (hospital o),
              {| ev_id := order_id o;
                 ev_status := newStatus;
                 ev_rider := rider o;
                 ev_updatedAt := now;
                 ev_deliveredAt := deliveredAt o |})] |}).
Proof.
  destruct (findIndex (fun order => String.eqb (order_id order) id) (orders st))
    as [i|] eqn:Hfind.
  - right. apply findIndex_Some in Hfind as (o & Hi & Hid%String.eqb_eq & Hfirst).
    exists i, o. split; [done|]. split; [done|].
    assert (forall j o', (j < i)%nat -> orders st !! j = Some o' -> order_id o' <> id)
      as Hfirst'.
    { intros j o' Hj Ho'. apply String.eqb_neq. by eapply Hfirst. }
    split; [done|]. by rewrite (updateStatus_found now id newStatus st i o).
  - left. assert (forall o, o ∈ orders st -> order_id o <> id) as Habsent.
    { intros o Ho. apply String.eqb_neq.
      by apply (proj1 (findIndex_None _ _) Hfind). }
    split; [done|]. by apply updateStatus_not_found.
Qed.

(** Two status updates of one id, one after the other, leave the store as
    the second alone does: the last status wins, and no earlier update makes
    a later one miss its order. *)
Theorem updateStatus_last_wins (now1 now2 : Z) (id status1 status2 : string)
    (st : ServiceState) :
  orders (snd (updateStatus now2 id status2 (snd (updateStatus now1 id status1 st)))) =
  orders (snd (updateStatus now2 id status2 st)).
Proof.
  destruct (updateStatus_cases now1 id status1 st)
    as [[_ ->]|(i & o & Hi & Hid & Hfirst & ->)]; [done|].
  rewrite (updateStatus_found now2 id status2 st i o Hi Hid Hfirst).
  rewrite (updateStatus_found now2 id status2 _ i (withStatus o status1 now1)).
  - cbn [snd orders]. by rewrite list_insert_insert_eq.
  - cbn [orders]. apply list_lookup_insert_eq. by eapply lookup_lt_Some.
  - done.
  - cbn [orders]. intros j o' Hj Ho'.
    rewrite list_lookup_insert_ne in Ho' by lia. by eapply Hfirst.
Qed.

(** [updateStatus] adds no order, removes none and moves none: position by
    position the ids and the hospitals of the store are what they were, so
    that ids that were unique remain unique. *)
Theorem updateStatus_keeps_ids (now : Z) (id newStatus : string) (st : ServiceState) :
  ids (orders (snd (updateStatus now id newStatus st))) = ids (orders st) /\
  map hospital (orders (snd (updateStatus now id newStatus st))) =
    map hospital (orders st).
Proof.
  destruct (updateStatus_cases now id newStatus st)
    as [[_ ->]|(i & o & Hi & Hid & Hfirst & ->)]; [done|].
  cbn [orders]. unfold ids. split.
  - change (map order_id ?l) with (order_id <$> l).
    rewrite list_fmap_insert. apply list_insert_id. by rewrite list_lookup_fmap, Hi.
  - change (map hospital ?l) with (hospital <$> l).
    rewrite list_fmap_insert. apply list_insert_id. by rewrite list_lookup_fmap, Hi.
Qed.

(** The events of [updateStatus]: the call emits one event when the id is
    stored and none when it is not, and never withdraws an earlier one. The
    event goes to the room of the hospital of the order it is about, and
    carries the id, the new status and the time of the call, with the rider
    and the [deliveredAt] that the store holds. *)
Theorem updateStatus_events (now : Z) (id newStatus : string) (st : ServiceState) :
  exists new : list (string * OrderUpdateEvent),
    emitted (snd (updateStatus now id newStatus st)) = (emitted st ++ new)%list /\
    (length new <= 1)%nat /\
    (new = [] <-> ~ In id (ids (orders st))) /\
    forall room ev, In (room, ev) new ->
      ev_id ev = id /\ ev_status ev = newStatus /\ ev_updatedAt ev = now /\
      exists o, o ∈ orders st /\ order_id o = id /\
        room = hospital_id (hospital o) /\
        ev_rider ev = rider o /\ ev_deliveredAt ev = deliveredAt o.
Proof.
  destruct (updateStatus_cases now id newStatus st)
    as [[Habsent ->]|(i & o & Hi & Hid & Hfirst & ->)].
  - exists []. cbn [snd]. rewrite app_nil_r. repeat split; try done.
    + simpl. lia.
    + intros _ (o & <- & Ho%list_elem_of_In)%in_map_iff. by apply (Habsent o).
  - eexists. cbn [emitted]. split; [done|]. split; [simpl; lia|]. split.
    + split; [done|]. intros Hnot. destruct Hnot. unfold ids.
      apply in_map_iff. exists o. split; [done|].
      apply list_elem_of_In. by eapply list_elem_of_lookup_2.
    + intros room ev [[= <- <-]|[]]. cbn. repeat split; try done.
      exists o. repeat split; try done. by eapply list_elem_of_lookup_2.
Qed.

Lemma filter_status_variant (p : Order -> bool) (l l' : list Order) :
  (forall a b, status_variant a b -> p b = p a) ->
  Forall2 status_variant l l' ->
  Forall2 status_variant (List.filter p l) (List.filter p l').
Proof.
  intros Hp. induction 1 as [|a b l l' Hab Hl IH]; simpl; [constructor|].
  rewrite (Hp a b Hab). destruct (p a); [by constructor|done].
Qed.

Lemma opt_filter_status_variant {B} (t : option B) (f : B -> Order -> bool)
    (l l' : list Order) :
  (forall s a b, status_variant a b -> f s b = f s a) ->
  Forall2 status_variant l l' ->
  Forall2 status_variant
    (match t with Some s => List.filter (f s) l | None => l end)
    (match t with Some s => List.filter (f s) l' | None => l' end).
Proof.
  intros Hf Hl. destruct t as [s|]; [|done].
  apply filter_status_variant; [apply Hf|done].
Qed.

Lemma updateStatus_status_variant (now : Z) (id newStatus : string)
    (st : ServiceState) :
  Forall2 status_variant (orders st) (orders (snd (updateStatus now id newStatus st))).
Proof.
  assert (Forall2 status_variant (orders st) (orders st)) as Hrefl.
  { apply Forall_Forall2_diag, Forall_forall. intros o _. by left. }
  destruct (updateStatus_cases now id newStatus st)
    as [[_ ->]|(i & o & Hi & Hid & Hfirst & ->)]; [done|].
  cbn [orders]. rewrite <- (list_insert_id (orders st) i o Hi) at 1.
  apply Forall2_insert; [done|]. right. by eexists _, _.
Qed.

(** A status update changes nothing to what a query without status filter
    matches: the same orders, by id and in the same order, pass its filters
    before and after the update, and [totalCount] is the same. *)
Theorem updateStatus_keeps_matches (parseDate : string -> option Z)
    (toLowerCase : string -> string)
    (now : Z) (id newStatus : string) (st : ServiceState)
    (params : OrderQueryParamsDto) :
  truthy (statuses params) = None ->
  let after := orders (snd (updateStatus now id newStatus st)) in
  ids (filterOrders parseDate toLowerCase after params) =
    ids (filterOrders parseDate toLowerCase (orders st) params) /\
  totalCount (pagination (findAllWithFilters parseDate toLowerCase after params)) =
    totalCount (pagination (findAllWithFilters parseDate toLowerCase (orders st) params)).
Proof.
  intros Hstatus after.
  assert (Forall2 status_variant (filterOrders parseDate toLowerCase (orders st) params)
            (filterOrders parseDate toLowerCase after params)) as Hvariant.
  { unfold filterOrders. cbv zeta. rewrite Hstatus.
    pose proof (updateStatus_status_variant now id newStatus st) as Hstore.
    fold after in Hstore.
    assert (forall a b, status_variant a b ->
              hospital b = hospital a /\ placedAt b = placedAt a /\
              bloodType b = bloodType a /\ bloodBank b = bloodBank a) as Hsame.
    { intros a b [->|(s & t & ->)]; done. }
    cbv beta iota.
    apply (opt_filter_status_variant (truthy (searchBloodBank params))
             (fun s order =>
                str_includes (toLowerCase (bb_name (bloodBank order))) (toLowerCase s)));
      [intros s a b Hab; by destruct (Hsame a b Hab) as (_ & _ & _ & ->)|].
    apply (opt_filter_status_variant (truthy (bloodTypes params))
             (fun s order => includes (split "," s) (bloodType order)));
      [intros s a b Hab; by destruct (Hsame a b Hab) as (_ & _ & -> & _)|].
    apply (opt_filter_status_variant (truthy (endDate params))
             (fun s order => date_le (Some (placedAt order)) (parseDate s)));
      [intros s a b Hab; by destruct (Hsame a b Hab) as (_ & -> & _)|].
    apply (opt_filter_status_variant (truthy (startDate params))
             (fun s order => date_ge (Some (placedAt order)) (parseDate s)));
      [intros s a b Hab; by destruct (Hsame a b Hab) as (_ & -> & _)|].
    apply filter_status_variant; [|done].
    intros a b Hab. by destruct (Hsame a b Hab) as (-> & _). }
  assert (ids (filterOrders parseDate toLowerCase after params) =
          ids (filterOrders parseDate toLowerCase (orders st) params)) as Hids.
  { unfold ids. induction Hvariant as [|a b l l' Hab _ IH]; [done|].
    simpl. rewrite IH. f_equal. by destruct Hab as [->|(s & t & ->)]. }
  split; [done|].
  unfold findAllWithFilters. cbv zeta. cbn [pagination totalCount].
  rewrite !sortedOrders_Permutation. f_equal.
  rewrite <- (length_map order_id (filterOrders parseDate toLowerCase after params)).
  rewrite <- (length_map order_id (filterOrders parseDate toLowerCase (orders st) params)).
  unfold ids in Hids. by rewrite Hids.
Qed.

(** ** The handler and the service *)

(** When the handler of [GET /orders] answers, its answer is the answer of
    the service to the same query, unchanged, and the query has no date
    range whose start is after its end. *)
Theorem controller_answer_is_service_answer (parseDate : string -> option Z)
    (ordersService : OrderQueryParamsDto -> OrdersResponseDto)
    (params : OrderQueryParamsDto) (response : OrdersResponseDto) :
  controller_findAllWithFilters parseDate ordersService params = Returned response ->
  response = ordersService params /\
  forall s e ts te,
    startDate params = Some s -> endDate params = Some e ->
    s <> "" -> e <> "" ->
    parseDate s = Some ts -> parseDate e = Some te ->
    ts <= te.
Proof.
  unfold controller_findAllWithFilters.
  destruct (dtoConstraintErrors params); [|done].
  destruct (truthy (startDate params)) as [s0|] eqn:Hstart;
    [destruct (truthy (endDate params)) as [e0|] eqn:Hend|].
  - cbv zeta. destruct (date_gt (parseDate s0) (parseDate e0)) eqn:Hgt; [done|].
    intros [= <-]. split; [done|].
    intros s e ts te Hs He Hs' He' Hts Hte.
    rewrite (proj2 (truthy_Some _ s)) in Hstart by done.
    rewrite (proj2 (truthy_Some _ e)) in Hend by done.
    injection Hstart as <-. injection Hend as <-.
    rewrite Hts, Hte in Hgt. simpl in Hgt. by apply Z.ltb_ge in Hgt.
  - intros [= <-]. split; [done|].
    intros s e ts te Hs He Hs' He' Hts Hte.
    rewrite (proj2 (truthy_Some _ e)) in Hend by done. done.
  - intros [= <-]. split; [done|].
    intros s e ts te Hs He Hs' He' Hts Hte.
    rewrite (proj2 (truthy_Some _ s)) in Hstart by done. done.
Qed.

(** ** The client of the update events *)

Lemma mergeOrder_same_id (order : Order) (u : PartialOrder) :
  sameId order u = true -> order_id (mergeOrder order u) = order_id order.
Proof.
  unfold sameId, mergeOrder. destruct (p_id u) as [i|]; [|done].
  by intros ->%String.eqb_eq.
Qed.

(** The merge of an update into a page changes neither the number of its
    orders nor their ids nor their positions: so does the first handler
    always, and the handler that sorts again whenever the update carries no
    completed status. When it carries one, that handler answers [sortOrders]
    of the merged page, whose ids are those of the page before; they are kept
    up to their order as soon as [sortOrders] only reorders. *)
Theorem handleOrderUpdate_keeps_ids
    (sortOrders : list Order -> SortConfig -> list Order) (sort : SortConfig)
    (updatedOrder : PartialOrder) (prevOrders : list Order) :
  ids (handleOrderUpdate updatedOrder prevOrders) = ids prevOrders /\
  (carriesCompletedStatus updatedOrder = false ->
   ids (handleOrderUpdateResorting sortOrders sort updatedOrder prevOrders) =
     ids prevOrders) /\
  (carriesCompletedStatus updatedOrder = true ->
   handleOrderUpdateResorting sortOrders sort updatedOrder prevOrders =
     sortOrders (handleOrderUpdate updatedOrder prevOrders) sort) /\
  ((forall l, sortOrders l sort ≡ₚ l) ->
   ids (handleOrderUpdateResorting sortOrders sort updatedOrder prevOrders) ≡ₚ
     ids prevOrders).
Proof.
  assert (ids (handleOrderUpdate updatedOrder prevOrders) = ids prevOrders) as Hids.
  { unfold ids, handleOrderUpdate. rewrite map_map. apply map_ext. intros o.
    destruct (sameId o updatedOrder) eqn:Hsame; [|done].
    by apply mergeOrder_same_id. }
  split; [done|].
  unfold handleOrderUpdateResorting. cbv zeta.
  fold (handleOrderUpdate updatedOrder prevOrders).
  repeat split.
  - by intros ->.
  - by intros ->.
  - intros Hperm. destruct (carriesCompletedStatus updatedOrder).
    + rewrite <- Hids. unfold ids. by rewrite (Hperm _).
    + by rewrite Hids.
Qed.


Lemma NoDup_ids_eq (l : list Order) (x y : Order) :
  NoDup (ids l) -> x ∈ l -> y ∈ l -> order_id x = order_id y -> x = y.
Proof.
  intros Hnodup [i Hi]%list_elem_of_lookup_1 [j Hj]%list_elem_of_lookup_1 Hid.
  assert (i = j) as ->; [|congruence].
  eapply NoDup_lookup; [exact Hnodup| |].
  - unfold ids. change (map order_id l) with (order_id <$> l).
    by rewrite list_lookup_fmap, Hi.
  - unfold ids. change (map order_id l) with (order_id <$> l).
    by rewrite list_lookup_fmap, Hj, Hid.
Qed.

(** The client follows the server: when the ids of the store are unique and
    the page shows orders of the store, the merge of the event that
    [updateStatus] emits gives a page all of whose orders are orders of the
    store after the update. *)
Theorem client_follows_server (now : Z) (id newStatus : string) (st : ServiceState)
    (page_ : list Order) (room : string) (ev : OrderUpdateEvent) (o' : Order) :
  NoDup (ids (orders st)) ->
  (forall o, o ∈ page_ -> o ∈ orders st) ->
  emitted (snd (updateStatus now id newStatus st)) =
    (emitted st ++ [(room, ev)])%list ->
  o' ∈ handleOrderUpdate (eventPayload ev) page_ ->
  o' ∈ orders (snd (updateStatus now id newStatus st)).
Proof.
  intros Hnodup Hpage Hev Ho'.
  destruct (updateStatus_cases now id newStatus st)
    as [[_ Heq]|(i & o & Hi & Hid & Hfirst & Heq)].
  { rewrite Heq in Hev. cbn [snd] in Hev.
    rewrite <- (app_nil_r (emitted st)) in Hev at 1.
    by apply app_inv_head in Hev. }
  rewrite Heq in Hev |- *. cbn [emitted orders] in *.
  apply app_inv_head in Hev. injection Hev as _ <-.
  unfold handleOrderUpdate in Ho'.
  apply list_elem_of_In, in_map_iff in Ho' as (x & <- & Hx%list_elem_of_In).
  unfold sameId. cbn [eventPayload p_id ev_id].
  destruct (String.eqb_spec (order_id x) (order_id o)) as [Hsame|Hdiff].
  - assert (x = o) as ->.
    { apply (NoDup_ids_eq (orders st)); [done|by apply Hpage| |done].
      by eapply list_elem_of_lookup_2. }
    replace (mergeOrder o _) with (withStatus o newStatus now)
      by (by destruct o).
    eapply list_elem_of_lookup_2, list_lookup_insert_eq. by eapply lookup_lt_Some.
  - apply Hpage, list_elem_of_lookup_1 in Hx as [j Hj].
    apply (list_elem_of_lookup_2 _ j). rewrite list_lookup_insert_ne; [done|].
    intros <-. congruence.
Qed.

(** ** The gateway *)




(** ** The further properties at work on the sample data *)

Lemma page_length_bound_witness :
  0 <= 25 /\
  Z.of_nat (length (data (findAllWithFilters isoDate asciiLowerCase sampleStore
                            (sampleParams "HOSP-001")))) <= 25.
Proof.
  assert (0 <= 25) as Hsize by lia. split; [exact Hsize|].
  exact (page_length_bound isoDate asciiLowerCase sampleStore (sampleParams "HOSP-001") Hsize).
Defined.

Lemma page_zero_empty_witness :
  page (withPage (sampleParams "HOSP-001") 0) = Some 0 /\
  data (findAllWithFilters isoDate asciiLowerCase sampleStore (withPage (sampleParams "HOSP-001") 0))
    = [] /\
  totalCount (pagination (findAllWithFilters isoDate asciiLowerCase sampleStore
                            (withPage (sampleParams "HOSP-001") 0))) = 2.
Proof.
  split; [reflexivity|].
  exact (page_zero_empty isoDate asciiLowerCase sampleStore (withPage (sampleParams "HOSP-001") 0)
           eq_refl).
Defined.

Lemma pages_cover_witness :
  pageSize onePerPage = Some 1 /\ 0 < 1 /\
  totalPages (pagination (findAllWithFilters isoDate asciiLowerCase sampleStore onePerPage)) = JsInt 2 /\
  (data (findAllWithFilters isoDate asciiLowerCase sampleStore (withPage onePerPage 1)) ++
   data (findAllWithFilters isoDate asciiLowerCase sampleStore (withPage onePerPage 2)) ++ [])%list =
  sortedOrders isoDate asciiLowerCase sampleStore onePerPage.
Proof.
  assert (0 < 1) as Hpos by lia.
  split; [reflexivity|]. split; [exact Hpos|]. split; [reflexivity|].
  exact (pages_cover isoDate asciiLowerCase sampleStore onePerPage 1 2 eq_refl Hpos eq_refl).
Defined.

Lemma unknown_column_sorts_as_placedAt_witness :
  ~ In "price" sortColumns /\
  findAllWithFilters isoDate asciiLowerCase sampleStore (withSort (sampleParams "HOSP-001") "price" "asc") =
  findAllWithFilters isoDate asciiLowerCase sampleStore (withSort (sampleParams "HOSP-001") "placedAt" "asc").
Proof.
  assert (~ In "price" sortColumns) as Hunknown.
  { simpl. intros H. repeat (destruct H as [H|H]; [discriminate|]). exact H. }
  split; [exact Hunknown|].
  exact (unknown_column_sorts_as_placedAt isoDate asciiLowerCase sampleStore (sampleParams "HOSP-001")
           "price" "asc" Hunknown).
Defined.

Lemma direction_but_asc_is_desc_witness :
  "ASC" <> "asc" /\
  findAllWithFilters isoDate asciiLowerCase sampleStore (withSort (sampleParams "HOSP-001") "id" "ASC") =
  findAllWithFilters isoDate asciiLowerCase sampleStore (withSort (sampleParams "HOSP-001") "id" "desc").
Proof.
  assert ("ASC" <> "asc") as Hdir by discriminate.
  split; [exact Hdir|].
  exact (direction_but_asc_is_desc isoDate asciiLowerCase sampleStore (sampleParams "HOSP-001")
           "id" "ASC" Hdir).
Defined.

Lemma unreadable_date_matches_nothing_witness :
  startDate garbageDateParams = Some "yesterday" /\
  "yesterday" <> "" /\
  isoDate "yesterday" = None /\
  data (findAllWithFilters isoDate asciiLowerCase sampleStore garbageDateParams) = [] /\
  totalCount (pagination (findAllWithFilters isoDate asciiLowerCase sampleStore garbageDateParams)) = 0.
Proof.
  assert ("yesterday" <> "") as Hne by discriminate.
  split; [reflexivity|]. split; [exact Hne|]. split; [reflexivity|].
  exact (unreadable_date_matches_nothing isoDate asciiLowerCase sampleStore garbageDateParams
           "yesterday" (or_introl eq_refl) Hne eq_refl).
Defined.

Lemma inverted_range_matches_nothing_witness :
  isoDate "2024-02-01" = Some 1706745600000 /\
  isoDate "2024-01-01" = Some 1704067200000 /\
  1704067200000 < 1706745600000 /\
  data (findAllWithFilters isoDate asciiLowerCase sampleStore badRangeParams) = [] /\
  totalCount (pagination (findAllWithFilters isoDate asciiLowerCase sampleStore badRangeParams)) = 0.
Proof.
  assert ("2024-02-01" <> "") as Hs by discriminate.
  assert ("2024-01-01" <> "") as He by discriminate.
  assert (1704067200000 < 1706745600000) as Hlt by lia.
  split; [reflexivity|]. split; [reflexivity|]. split; [exact Hlt|].
  exact (inverted_range_matches_nothing isoDate asciiLowerCase sampleStore badRangeParams
           "2024-02-01" "2024-01-01" 1706745600000 1704067200000
           eq_refl eq_refl Hs He eq_refl eq_refl Hlt).
Defined.

Lemma search_ignores_case_witness :
  (forall x, asciiLowerCase x = "" <-> x = "") /\
  asciiLowerCase "BLOOD bank" = asciiLowerCase "Blood Bank" /\
  findAllWithFilters isoDate asciiLowerCase sampleStore
    (withSearch (sampleParams "HOSP-001") "BLOOD bank") =
  findAllWithFilters isoDate asciiLowerCase sampleStore
    (withSearch (sampleParams "HOSP-001") "Blood Bank").
Proof.
  split; [exact asciiLowerCase_empty|]. split; [reflexivity|].
  exact (search_ignores_case isoDate asciiLowerCase sampleStore
           (sampleParams "HOSP-001") "BLOOD bank" "Blood Bank"
           asciiLowerCase_empty eq_refl).
Defined.

Lemma updateStatus_keeps_matches_witness :
  truthy (statuses (sampleParams "HOSP-001")) = None /\
  ids (filterOrders isoDate asciiLowerCase
         (orders (snd (updateStatus 1704240000000 "O1" "delivered" sampleState)))
         (sampleParams "HOSP-001")) =
    ids (filterOrders isoDate asciiLowerCase (orders sampleState) (sampleParams "HOSP-001")).
Proof.
  split; [reflexivity|].
  exact (proj1 (updateStatus_keeps_matches isoDate asciiLowerCase 1704240000000 "O1" "delivered"
                  sampleState (sampleParams "HOSP-001") eq_refl)).
Defined.

Lemma controller_answer_is_service_answer_witness :
  controller_findAllWithFilters isoDate (findAllWithFilters isoDate asciiLowerCase sampleStore)
    filteredParams =
    Returned (findAllWithFilters isoDate asciiLowerCase sampleStore filteredParams) /\
  findAllWithFilters isoDate asciiLowerCase sampleStore filteredParams =
    findAllWithFilters isoDate asciiLowerCase sampleStore filteredParams.
Proof.
  assert (controller_findAllWithFilters isoDate (findAllWithFilters isoDate asciiLowerCase sampleStore)
            filteredParams =
          Returned (findAllWithFilters isoDate asciiLowerCase sampleStore filteredParams)) as Hret
    by (vm_compute; reflexivity).
  split; [exact Hret|].
  exact (proj1 (controller_answer_is_service_answer isoDate
                  (findAllWithFilters isoDate asciiLowerCase sampleStore) filteredParams _ Hret)).
Defined.


Lemma client_follows_server_witness :
  withStatus sampleO1 "delivered" 1704240000000 ∈
    handleOrderUpdate (eventPayload sampleEvent) [sampleO1] /\
  withStatus sampleO1 "delivered" 1704240000000 ∈
    orders (snd (updateStatus 1704240000000 "O1" "delivered" sampleState)).
Proof.
  assert (withStatus sampleO1 "delivered" 1704240000000 ∈
            handleOrderUpdate (eventPayload sampleEvent) [sampleO1]) as Hin
    by (vm_compute; apply list_elem_of_here).
  split; [exact Hin|].
  apply (client_follows_server 1704240000000 "O1" "delivered" sampleState [sampleO1]
           "HOSP-001" sampleEvent).
  - unfold ids. simpl. repeat (apply NoDup_cons_2; [|]).
    + intros H. repeat (apply elem_of_cons in H as [H|H]; [discriminate|]).
      by apply elem_of_nil in H.
    + intros H. repeat (apply elem_of_cons in H as [H|H]; [discriminate|]).
      by apply elem_of_nil in H.
    + intros H. by apply elem_of_nil in H.
    + apply NoDup_nil_2.
  - intros o Ho. apply list_elem_of_singleton in Ho as ->.
    vm_compute. apply list_elem_of_further, list_elem_of_here.
  - reflexivity.
  - exact Hin.
Defined.
